(** * Handmade Chocolate API: a shallow embedding of [main.py]

    The HTTP handlers of [main.py] are embedded as functions in a small
    state-and-exception monad.  The state is the module-level [db] handle
    together with the contents of the MongoDB database it points to.

    Layout of the development:
    - [Py]       the fragment of the Python runtime the handlers rely on
                 (exceptions, [try]/[except], truthiness, slicing);
    - [Bson]     [bson.ObjectId] as its 12 bytes, and the hexadecimal form;
    - [Mongo]    documents, query filters and the driver calls that are used;
    - [Pcre]     a regular-expression engine for metacharacter-free patterns
                 and the wildcard [.];
    - [schemas], [database]  the two repository modules that [main.py]
                 imports and that are described by the specification only;
    - [main]     the handlers of [main.py];
    - [spec]     the conditions of the specification, in its own words;
    - [example]  concrete stores, environments and request bodies;
    - the properties of the handlers. *)

From Stdlib Require Import PrimFloat ZArith NArith Lia Ascii.
From stdpp Require Import gmap strings list fin_maps pretty.

Set Warnings "-register-all,-inexact-float".

Local Open Scope string_scope.

(* ===================================================================== *)
(** ** Python runtime *)
(* ===================================================================== *)

Module Py.

(** The exception classes that occur.  Every class derives from Python's
    [Exception], so a handler [except Exception] catches all of them. *)
Inductive exception :=
| Exception (message : string)        (* raise Exception("...") *)
| TypeError (message : string)        (* e.g. subscripting None *)
| InvalidId (message : string)        (* bson.errors.InvalidId *)
| PyMongoError (message : string)     (* errors raised by the driver *)
| OverflowError (message : string)    (* raised by the BSON encoder *)
| ValidationError (message : string)  (* pydantic *)
| HTTPException (status_code : Z) (detail : string).

(** [str(e)] *)
Definition str (e : exception) : string :=
  match e with
  | Exception m | TypeError m | InvalidId m | PyMongoError m
  | OverflowError m | ValidationError m => m
  | HTTPException status_code detail => pretty status_code ++ ": " ++ detail
  end.

(** A call either returns a value or raises. *)
Inductive outcome (A : Type) :=
| Returned (v : A)
| Raised (e : exception).
Arguments Returned {A} v.
Arguments Raised {A} e.

(** Computations over a mutable state [S]; the state reached when an
    exception is raised is kept, as in Python. *)
Definition M (S A : Type) : Type := S -> outcome A * S.

Definition ret {S A} (v : A) : M S A := fun s => (Returned v, s).

Definition bind {S A B} (m : M S A) (k : A -> M S B) : M S B :=
  fun s => match m s with
           | (Returned v, s') => k v s'
           | (Raised e, s') => (Raised e, s')
           end.

Definition raise {S A} (e : exception) : M S A := fun s => (Raised e, s).

(** [try: body  except Exception as e: handler e] *)
Definition try_except {S A} (body : M S A) (handler : exception -> M S A) : M S A :=
  fun s => match body s with
           | (Returned v, s') => (Returned v, s')
           | (Raised e, s') => handler e s'
           end.

Definition get {S} : M S S := fun s => (Returned s, s).
Definition modify {S} (f : S -> S) : M S unit := fun s => (Returned tt, f s).

(** A call that cannot touch the state. *)
Definition lift {S A} (r : outcome A) : M S A := fun s => (r, s).

(** Truthiness of an [Optional[str]]: [None] and [""] are falsy. *)
Definition truthy (o : option string) : bool :=
  match o with
  | Some (String _ _) => true
  | _ => false
  end.

(** [s[:n]].  Strings are byte strings here; this agrees with Python's
    slicing on ASCII text. *)
Definition slice_to (n : nat) (s : string) : string := String.substring 0 n s.

(** [repr(s)] for a [str]: the interpreter's quoting and escaping.  Which
    characters it escapes depends on its Unicode tables, so it is taken
    as given. *)
Class Runtime := repr : string -> string.

(** [repr] as it is on ASCII text: single quotes, or double quotes when
    the text has a single quote and no double quote; backslash, the quote
    in use, tab, line feed and carriage return escaped with a backslash,
    other control characters as [\xhh].  Bytes above 127 are left as they
    are, which is what [repr] does to printable characters. *)
Definition double_quote : ascii := "034"%char.
Definition single_quote : ascii := "'"%char.

Definition hex_lower (d : N) : ascii :=
  ascii_of_N (if (d <? 10)%N then 48 + d else 87 + d).

Definition escape (quote c : ascii) : string :=
  let n := N_of_ascii c in
  if Ascii.eqb c quote || Ascii.eqb c "\"%char then String "\"%char (String c "")
  else if Ascii.eqb c "009"%char then "\t"
  else if Ascii.eqb c "010"%char then "\n"
  else if Ascii.eqb c "013"%char then "\r"
  else if (n <? 32)%N || (n =? 127)%N
       then String "\"%char (String "x"%char
              (String (hex_lower (n / 16)) (String (hex_lower (n mod 16)) "")))
  else String c "".

Fixpoint escape_all (quote : ascii) (s : string) : string :=
  match s with
  | "" => ""
  | String c s' => escape quote c ++ escape_all quote s'
  end.

Definition has_char (c : ascii) (s : string) : bool :=
  existsb (Ascii.eqb c) (String.list_ascii_of_string s).

Definition ascii_repr : Runtime :=
  fun s =>
    let quote := if has_char single_quote s && negb (has_char double_quote s)
                 then double_quote else single_quote in
    String quote (escape_all quote s ++ String quote "").

End Py.

Declare Scope py_scope.
Delimit Scope py_scope with py.
Notation "'let*' x ':=' m 'in' k" := (Py.bind m (fun x => k))
  (at level 10, x name, m at level 100, k at level 200) : py_scope.
Notation "m ';;' k" := (Py.bind m (fun _ => k))
  (at level 100, k at level 200, right associativity) : py_scope.

(* ===================================================================== *)
(** ** bson.ObjectId *)
(* ===================================================================== *)

Module Bson.

(** The value of an ObjectId object, its [binary]: a byte string, one
    character per byte.  An identifier that the driver generates or the
    server stores has 12 bytes; one made from a [str] has as many bytes
    as [bytes.fromhex] found in it. *)
Definition ObjectId := string.

Definition hex_digit (d : N) : ascii :=
  ascii_of_N (if (d <? 10)%N then 48 + d else 87 + d).

Definition hex_value (c : ascii) : option N :=
  let n := N_of_ascii c in
  if ((48 <=? n) && (n <=? 57))%N then Some (n - 48)%N
  else if ((97 <=? n) && (n <=? 102))%N then Some (n - 87)%N
  else if ((65 <=? n) && (n <=? 70))%N then Some (n - 55)%N
  else None.

(** [binascii.hexlify]: two lowercase digits for each byte. *)
Fixpoint hexlify (b : string) : string :=
  match b with
  | "" => ""
  | String c b' =>
      let n := N_of_ascii c in
      String (hex_digit (n / 16)) (String (hex_digit (n mod 16)) (hexlify b'))
  end.

(** ASCII whitespace: space, tab, line feed, vertical tab, form feed and
    carriage return. *)
Definition is_space (c : ascii) : bool :=
  existsb (Ascii.eqb c) [" "; "009"; "010"; "011"; "012"; "013"]%char.

(** [bytes.fromhex]: pairs of hexadecimal digits; whitespace is skipped
    before a pair and at the end, not inside a pair. *)
Fixpoint fromhex (s : string) : option string :=
  match s with
  | "" => Some ""
  | String c s' =>
      if is_space c then fromhex s'
      else
        match hex_value c, s' with
        | Some top, String c' s'' =>
            match hex_value c' with
            | Some bot => String (ascii_of_N (top * 16 + bot)) <$> fromhex s''
            | None => None
            end
        | _, _ => None
        end
  end.

(** [str(oid)] *)
Definition str (oid : ObjectId) : string := hexlify oid.

Definition invalid_id_message {runtime : Py.Runtime} (oid : string) : string :=
  Py.repr oid ++ " is not a valid ObjectId, it must be a 12-byte input or a 24-character hex string".

(** [ObjectId(oid)] for a [str] argument: a string of 24 characters that
    [bytes.fromhex] can read is accepted, anything else raises
    [InvalidId]. *)
Definition ObjectId_of {runtime : Py.Runtime} (oid : string) : Py.outcome ObjectId :=
  if (String.length oid =? 24)%nat then
    match fromhex oid with
    | Some b => Py.Returned b
    | None => Py.Raised (Py.InvalidId (invalid_id_message oid))
    end
  else Py.Raised (Py.InvalidId (invalid_id_message oid)).

(** The identifiers that the driver generates are numbered: the [n]th is
    the 12 bytes of [n], most significant first. *)
Definition modulus : N := 2 ^ 96.

Fixpoint to_bytes (k : nat) (n : N) (suffix : string) : string :=
  match k with
  | O => suffix
  | S k' => to_bytes k' (n / 256) (String (ascii_of_N (n mod 256)) suffix)
  end.

Definition generated (n : N) : ObjectId := to_bytes 12 n "".

(** [int.from_bytes(b, "big")], continuing from [acc]. *)
Fixpoint from_bytes (acc : N) (b : string) : N :=
  match b with
  | "" => acc
  | String c b' => from_bytes (acc * 256 + N_of_ascii c) b'
  end.

End Bson.

(* ===================================================================== *)
(** ** MongoDB and the pymongo driver *)
(* ===================================================================== *)

Module Mongo.
Import Py.

(** Field values of the documents handled by this service. *)
Inductive value :=
| VNone
| VBool (b : bool)
| VInt (n : Z)
| VFloat (x : float)
| VStr (s : string)
| VList (l : list value)
| VObjectId (o : Bson.ObjectId).

(** A Python [dict] with string keys. *)
Abbreviation dict := (gmap string value).

(** The value under [_id]: an ObjectId when the driver generated it, or a
    null, boolean, integer or text that a writer chose. *)
Inductive identifier :=
| IdObjectId (o : Bson.ObjectId)
| IdNone
| IdBool (b : bool)
| IdInt (n : Z)
| IdStr (s : string).

Definition id_value (i : identifier) : value :=
  match i with
  | IdObjectId o => VObjectId o
  | IdNone => VNone
  | IdBool b => VBool b
  | IdInt n => VInt n
  | IdStr s => VStr s
  end.

(** [str(v)] for the value of an [_id]. *)
Definition str_id (i : identifier) : string :=
  match i with
  | IdObjectId o => Bson.str o
  | IdNone => "None"
  | IdBool true => "True"
  | IdBool false => "False"
  | IdInt n => pretty n
  | IdStr s => s
  end.

(** A stored document.  The server keeps an [_id] in every document. *)
Record document := { _id : identifier; fields : dict }.

(** The [dict] that the driver hands to Python for a stored document. *)
Definition to_dict (d : document) : dict := <["_id" := id_value (_id d)]> (fields d).

(** *** Query filters *)

(** The right-hand sides that [main.py] compares against. *)
Inductive operand :=
| OStr (s : string)
| OId (o : Bson.ObjectId).

Inductive condition :=
| Eq (x : operand)                       (* {key: x} *)
| In (xs : list operand)                 (* {key: {"$in": xs}} *)
| Regex (pattern options : string).      (* {key: {"$regex": pattern, "$options": options}} *)

Inductive query :=
| Field (key : string) (c : condition)
| Or (alternatives : list query)         (* {"$or": [...]} *)
| And (entries : list query).            (* a dict of several entries; {} is And [] *)

(** A stored ObjectId has 12 bytes, so an ObjectId of another length
    equals none. *)
Definition operand_eqb (x : operand) (v : value) : bool :=
  match x, v with
  | OStr s, VStr t => String.eqb s t
  | OId o, VObjectId p => (String.length o =? 12)%nat && String.eqb o p
  | _, _ => false
  end.

(** A test on a field holds when the field's value passes it or, for an
    array-valued field, when one of the array's elements does.  An absent
    field passes none of the tests used here. *)
Definition field_matches (test : value -> bool) (v : option value) : bool :=
  match v with
  | Some (VList l) => existsb test l
  | Some x => test x
  | None => false
  end.

(** The server's regular-expression engine: [regex_compile pattern options]
    either rejects the pattern or yields the unanchored search for it. *)
Class RegexEngine := regex_compile : string -> string -> outcome (string -> bool).

Definition compile_condition {regex : RegexEngine} (key : string) (c : condition)
  : outcome (document -> bool) :=
  match c with
  | Eq x => Returned (fun d => field_matches (operand_eqb x) (to_dict d !! key))
  | In xs =>
      Returned (fun d =>
        field_matches (fun v => existsb (fun x => operand_eqb x v) xs) (to_dict d !! key))
  | Regex pattern options =>
      match regex_compile pattern options with
      | Returned search =>
          Returned (fun d =>
            field_matches (fun v => match v with VStr s => search s | _ => false end)
                          (to_dict d !! key))
      | Raised e => Raised e
      end
  end.

(** The server parses the whole filter before it scans the collection, so
    a bad pattern fails the query even on an empty collection. *)
Fixpoint compile {regex : RegexEngine} (q : query) : outcome (document -> bool) :=
  match q with
  | Field key c => compile_condition key c
  | Or alternatives =>
      (fix any (qs : list query) : outcome (document -> bool) :=
         match qs with
         | [] => Returned (fun _ => false)
         | q :: qs' =>
             match compile q, any qs' with
             | Returned p, Returned ps => Returned (fun d => p d || ps d)
             | Raised e, _ => Raised e
             | _, Raised e => Raised e
             end
         end) alternatives
  | And entries =>
      (fix all (qs : list query) : outcome (document -> bool) :=
         match qs with
         | [] => Returned (fun _ => true)
         | q :: qs' =>
             match compile q, all qs' with
             | Returned p, Returned ps => Returned (fun d => p d && ps d)
             | Raised e, _ => Raised e
             | _, Raised e => Raised e
             end
         end) entries
  end.

(** *** The database behind the [db] handle *)

Record Database := {
  name : string;
  (** [Some text]: the server cannot be reached and every round trip
      raises a driver error with that text. *)
  fault : option string;
  collections : gmap string (list document);
  (** state of the driver's ObjectId generator *)
  oid_counter : N;
  (** the text of the error that answers the insert of a document whose
      encoding takes the given number of bytes, more than the server
      stores *)
  too_large : N -> string
}.

Definition with_collections (db : Database) (cs : gmap string (list document)) : Database :=
  {| name := name db; fault := fault db; collections := cs; oid_counter := oid_counter db;
     too_large := too_large db |}.

Definition with_oid_counter (db : Database) (n : N) : Database :=
  {| name := name db; fault := fault db; collections := collections db; oid_counter := n;
     too_large := too_large db |}.

(** [db[c]]: a collection that was never written to is empty. *)
Definition collection (db : Database) (c : string) : list document :=
  default [] (collections db !! c).

Local Open Scope py_scope.

Definition round_trip : M Database unit :=
  fun db => match fault db with
            | Some text => (Raised (PyMongoError text), db)
            | None => (Returned tt, db)
            end.

(** [db.list_collection_names()] *)
Definition list_collection_names : M Database (list string) :=
  round_trip ;;
  let* db := get in
  ret (map_to_list (collections db)).*1.

(** [list(db[c].find(q))] *)
Definition find {regex : RegexEngine} (c : string) (q : query) : M Database (list document) :=
  round_trip ;;
  let* p := lift (compile q) in
  let* db := get in
  ret (List.filter p (collection db c)).

(** [db[c].find_one(q)] *)
Definition find_one {regex : RegexEngine} (c : string) (q : query) : M Database (option document) :=
  let* docs := find c q in
  ret (head docs).

(** [db[c].count_documents(q)] *)
Definition count_documents {regex : RegexEngine} (c : string) (q : query) : M Database Z :=
  let* docs := find c q in
  ret (Z.of_nat (length docs)).

(** The driver's [ObjectId()]. *)
Definition generate_oid : M Database Bson.ObjectId :=
  fun db => (Returned (Bson.generated (oid_counter db)),
             with_oid_counter db (oid_counter db + 1)).

(** The document is stored under the identifier [oid]: the test of the
    filter [{"_id": oid}]. *)
Definition carries (oid : Bson.ObjectId) (d : document) : bool :=
  operand_eqb (OId oid) (id_value (_id d)).

Definition has_id (oid : Bson.ObjectId) (c : list document) : bool :=
  existsb (carries oid) c.

(** The integers that the BSON encoder writes in four bytes, and those
    that it writes at all: at most eight bytes. *)
Definition int32 (n : Z) : bool := ((- 2 ^ 31 <=? n) && (n <? 2 ^ 31))%Z.

Definition int64 (n : Z) : bool := ((- 2 ^ 63 <=? n) && (n <? 2 ^ 63))%Z.

Fixpoint encodable_value (v : value) : bool :=
  match v with
  | VInt n => int64 n
  | VList l => forallb encodable_value l
  | _ => true
  end.

Definition encodable (doc : dict) : bool :=
  bool_decide (map_Forall (fun _ v => encodable_value v = true) doc).

(** The number of bytes of an element of a BSON document: the type, the
    key with its terminator, the value. *)
Definition element_size (key : string) (size : N) : N :=
  (1 + N.of_nat (String.length key) + 1 + size)%N.

(** The number of bytes of the encoding of a value; an array is encoded
    as the document of its elements under the keys 0, 1, 2, ... *)
Fixpoint value_size (v : value) : N :=
  (match v with
   | VNone => 0
   | VBool _ => 1
   | VInt n => if int32 n then 4 else 8
   | VFloat _ => 8
   | VStr s => 4 + N.of_nat (String.length s) + 1
   | VObjectId _ => 12
   | VList l =>
       4 + (fix elements (i : N) (l : list value) : N :=
              match l with
              | [] => 0
              | v :: l' => element_size (pretty i) (value_size v) + elements (i + 1) l'
              end) 0 l + 1
   end)%N.

Definition document_size (doc : dict) : N :=
  (4 + map_fold (fun key v size => element_size key (value_size v) + size) 0 doc + 1)%N.

(** [maxBsonObjectSize]: 16 MiB. *)
Definition max_bson_size : N := (16 * 1024 * 1024)%N.

(** What is sent for [doc] under the identifier [oid]. *)
Definition with_id (oid : Bson.ObjectId) (doc : dict) : dict := <["_id" := VObjectId oid]> doc.

(** [db[c].insert_one(doc)] for a [doc] without an [_id] key: the driver
    generates the identifier and encodes the document, which fails for an
    integer that does not fit; a document larger than the server stores
    is refused, and so is an identifier that is already in the collection
    (unique index on [_id]). *)
Definition insert_one (c : string) (doc : dict) : M Database Bson.ObjectId :=
  let* oid := generate_oid in
  if encodable doc then
    round_trip ;;
    let* db := get in
    let size := document_size (with_id oid doc) in
    if (max_bson_size <? size)%N then raise (PyMongoError (too_large db size))
    else if has_id oid (collection db c)
    then raise (PyMongoError "E11000 duplicate key error collection")
    else
      modify (fun db =>
        with_collections db
          (<[c := (collection db c ++ [{| _id := IdObjectId oid; fields := doc |}])%list]>
             (collections db))) ;;
      ret oid
  else raise (OverflowError "MongoDB can only handle up to 8-byte ints").

Fixpoint insert_each (c : string) (docs : list dict) : M Database (list Bson.ObjectId) :=
  match docs with
  | [] => ret []
  | doc :: docs' =>
      let* oid := insert_one c doc in
      let* oids := insert_each c docs' in
      ret (oid :: oids)
  end.

(** [db[c].insert_many(docs).inserted_ids]: the documents are encoded
    before anything is sent; the ordered bulk insert then stops at the
    first document that fails. *)
Definition insert_many (c : string) (docs : list dict) : M Database (list Bson.ObjectId) :=
  match docs with
  | [] => raise (TypeError "documents must be a non-empty list")
  | _ =>
      if forallb encodable docs then insert_each c docs
      else raise (OverflowError "MongoDB can only handle up to 8-byte ints")
  end.

End Mongo.

(* ===================================================================== *)
(** ** A regular-expression engine for literal patterns *)
(* ===================================================================== *)

Module Pcre.
Import Py.

(** The characters that are special outside a character class. *)
Definition metacharacters : list ascii := String.list_ascii_of_string "\^$.[|()?*+{".

Definition metacharacter (c : ascii) : bool := existsb (Ascii.eqb c) metacharacters.

(** A pattern without metacharacters stands for its own text. *)
Fixpoint literal (pattern : string) : bool :=
  match pattern with
  | "" => true
  | String c rest => negb (metacharacter c) && literal rest
  end.

Fixpoint starts_with (needle s : string) : bool :=
  match needle, s with
  | "", _ => true
  | String a needle', String b s' => Ascii.eqb a b && starts_with needle' s'
  | String _ _, "" => false
  end.

(** The unanchored search for a text. *)
Fixpoint occurs (needle s : string) : bool :=
  starts_with needle s ||
  match s with
  | "" => false
  | String _ s' => occurs needle s'
  end.

(** The server takes a pattern of at most 32764 bytes without a NUL
    character. *)
Definition max_pattern_size : N := 32764.

Definition accepted (pattern : string) : bool :=
  negb (existsb (Ascii.eqb "000"%char) (String.list_ascii_of_string pattern)) &&
  (N.of_nat (String.length pattern) <=? max_pattern_size)%N.

(** The options understood: none, or ["i"] for caseless matching. *)
Definition caseless_of (options : string) : option bool :=
  if String.eqb options "" then Some false
  else if String.eqb options "i" then Some true
  else None.

(** An engine over a case folding [fold] of texts (the mapping of a text
    to the one that all its case variants share, which depends on the
    Unicode tables and is taken as given): a literal pattern that the
    server takes is searched for, after folding when the match is
    caseless; the pattern [.] finds any character but a line feed; every
    other pattern or option is left to [other]. *)
Definition engine (fold : string -> string) (other : Mongo.RegexEngine) : Mongo.RegexEngine :=
  fun pattern options =>
    match caseless_of options with
    | Some caseless =>
        if literal pattern && accepted pattern then
          Returned (fun s => if caseless then occurs (fold pattern) (fold s)
                             else occurs pattern s)
        else if String.eqb pattern "." then
          Returned (fun s => existsb (fun c => negb (Ascii.eqb c "010"%char))
                                     (String.list_ascii_of_string s))
        else other pattern options
    | None => other pattern options
    end.

(** What the case folding is on ASCII text, for the examples: the
    letters A to Z become a to z. *)
Definition ascii_lower (c : ascii) : ascii :=
  let n := N_of_ascii c in
  if ((65 <=? n) && (n <=? 90))%N then ascii_of_N (n + 32) else c.

Fixpoint ascii_fold (s : string) : string :=
  match s with
  | "" => ""
  | String c s' => String (ascii_lower c) (ascii_fold s')
  end.

(** The engine used in the examples, whose texts are ASCII: the folding
    of ASCII text, and every pattern that [engine] does not cover
    refused. *)
Definition plain_only : Mongo.RegexEngine :=
  engine ascii_fold (fun _ _ => Raised (PyMongoError "Regular expression is invalid")).

End Pcre.

(* ===================================================================== *)
(** ** schemas.py and database.py *)
(* ===================================================================== *)

Module schemas.
Import Py Mongo.

(** [schemas.py], which declares the model [Chocolate], is not among the
    sources, so the declaration is taken as given: [Chocolate kwargs] is
    the outcome of calling [Chocolate] with the keyword arguments
    [kwargs], a validation error or the field dictionary of the record
    that was made. *)
Class Schema := Chocolate : dict -> outcome dict.

(** Modelled from the spec: sections 3 and 4.2 describe the product record
    by its fields (name, description, price, category, cacao_percent,
    image, tags, in_stock), built "with defaults applied (tags -> empty
    sequence, in_stock -> true)", with "no data validation beyond type
    coercion at the boundary".  They do not say what becomes of an
    explicit null for tags; that is left to [null_tags]. *)
Definition as_specified (null_tags : dict -> outcome dict) : Schema :=
  fun kwargs =>
    let default_to (key : string) (v : value) (m : dict) : dict :=
      match m !! key with
      | Some _ => m
      | None => <[key := v]> m
      end in
    match kwargs !! "tags" with
    | Some VNone => null_tags kwargs
    | _ => Returned (default_to "tags" (VList []) (default_to "in_stock" (VBool true) kwargs))
    end.


End schemas.

Module database.
Import Py Mongo.
Local Open Scope py_scope.

(** The module-level [db]: [None] when no connection was set up, else the
    handle of the database. *)
Definition state := option Database.

Definition db_is_None : M state bool :=
  fun db => (Returned (match db with None => true | Some _ => false end), db).

(** A driver call made through [db]. *)
Definition on_db {A} (call : M Database A) : M state A :=
  fun db =>
    match db with
    | Some handle => let '(r, handle') := call handle in (r, Some handle')
    | None => (Raised (TypeError "'NoneType' object is not subscriptable"), db)
    end.

(** Modelled from the spec: [database.py] is not among the sources.
    Section 4.1, [insert(collectionName, record) -> identifier]: "persists
    a record, returns its generated identifier", the identifier being
    "exposed externally as a string"; "fails with StoreUnavailable if no
    live connection exists". *)
Definition create_document (collection_name : string) (data : dict) : M state string :=
  let* none := db_is_None in
  if none then raise (Exception "Database not available")
  else
    let* inserted_id := on_db (insert_one collection_name data) in
    ret (Bson.str inserted_id).

(** Modelled from the spec: [database.py] is not among the sources.
    Section 4.1, [query(collectionName, filter, limit)]: "returns up to
    [limit] matching records in store-native order"; "fails with
    StoreUnavailable if disconnected". *)
Definition get_documents {regex : RegexEngine}
    (collection_name : string) (filter_dict : query) (limit : Z) : M state (list document) :=
  let* none := db_is_None in
  if none then raise (Exception "Database not available")
  else
    let* docs := on_db (find collection_name filter_dict) in
    ret (take (Z.to_nat limit) docs).

End database.

(* ===================================================================== *)
(** ** main.py *)
(* ===================================================================== *)

Module main.
Import Py Mongo database.
Local Open Scope py_scope.

(** [read_root] *)
Definition read_root : dict := {[ "message" := VStr "Handmade Chocolate API is running" ]}.

(** *** GET /test *)

(** [test_database], with [os.environ] as [environ].  The local
    [response] dictionary is the state of the body; [db] is only read. *)
Definition test_database (environ : gmap string string) : M state dict :=
  fun db =>
    let response : dict :=
      <["backend" := VStr "✅ Running"]> (
      <["database" := VStr "❌ Not Available"]> (
      <["database_url" := VNone]> (
      <["database_name" := VNone]> (
      <["connection_status" := VStr "Not Connected"]> (
      <["collections" := VList []]> ∅))))) in
    let set (key : string) (v : value) : M dict unit := modify (<[key := v]>) in
    let body : M dict unit :=
      try_except
        (match db with
         | Some db =>
             set "database" (VStr "✅ Available") ;;
             set "database_url" (VStr "✅ Configured") ;;
             (* a pymongo Database always has the attribute [name] *)
             set "database_name" (VStr (name db)) ;;
             set "connection_status" (VStr "Connected") ;;
             try_except
               (let* collections := lift (list_collection_names db).1 in
                set "collections" (VList (VStr <$> take 10 collections)) ;;
                set "database" (VStr "✅ Connected & Working"))
               (fun e =>
                  set "database"
                      (VStr ("⚠️  Connected but Error: " ++ slice_to 50 (str e))))
         | None =>
             set "database" (VStr "⚠️  Available but not initialized")
         end)
        (fun e => set "database" (VStr ("❌ Error: " ++ slice_to 50 (str e)))) ;;
      set "database_url"
          (VStr (if truthy (environ !! "DATABASE_URL") then "✅ Set" else "❌ Not Set")) ;;
      set "database_name"
          (VStr (if truthy (environ !! "DATABASE_NAME") then "✅ Set" else "❌ Not Set"))
    in
    match body response with
    | (Returned _, response) => (Returned response, db)
    | (Raised e, _) => (Raised e, db)
    end.

(** *** Chocolate endpoints *)

Record ChocolateCreate := {
  name : string;
  description : string;
  price : float;
  category : string;
  cacao_percent : option Z;
  image : option string;
  tags : option (list string);
  in_stock : bool
}.

(** The members of a request body that passes validation, after type
    coercion.  A member with a default is [None] when the body omits it;
    [Some None] is an explicit JSON null. *)
Record body := {
  body_name : string;
  body_description : string;
  body_price : float;
  body_category : string;
  body_cacao_percent : option (option Z);
  body_image : option (option string);
  body_tags : option (option (list string));
  body_in_stock : option bool
}.


Definition of_option {A} (f : A -> value) (o : option A) : value :=
  match o with
  | Some a => f a
  | None => VNone
  end.

(** [payload.model_dump()] *)
Definition model_dump (payload : ChocolateCreate) : dict :=
  <["name" := VStr (name payload)]> (
  <["description" := VStr (description payload)]> (
  <["price" := VFloat (price payload)]> (
  <["category" := VStr (category payload)]> (
  <["cacao_percent" := of_option VInt (cacao_percent payload)]> (
  <["image" := of_option VStr (image payload)]> (
  <["tags" := of_option (fun l => VList (VStr <$> l)) (tags payload)]> (
  <["in_stock" := VBool (in_stock payload)]> ∅))))))).

(** [create_chocolate]; the result is the response [{"id": inserted_id}]. *)
Definition create_chocolate {schema : schemas.Schema} (payload : ChocolateCreate) : M state dict :=
  try_except
    (let* chocolate := lift (schemas.Chocolate (model_dump payload)) in
     let* inserted_id := create_document "chocolate" chocolate in
     ret ({[ "id" := VStr inserted_id ]} : dict))
    (fun e => raise (HTTPException 500 (str e))).

(** [d["id"] = str(d.get("_id")); d.pop("_id", None)] *)
Definition expose_id (d : document) : dict :=
  delete "_id" (<["id" := VStr (str_id (_id d))]> (to_dict d)).

(** [list_chocolates]; the result is the list under ["items"]. *)
Definition list_chocolates {regex : RegexEngine}
    (category q : option string) (limit : Z) : M state (list dict) :=
  try_except
    (let filter_dict : list query := [] in
     let filter_dict :=
       match category with
       | Some (String _ _ as category) =>
           (filter_dict ++ [Field "category" (Eq (OStr category))])%list
       | _ => filter_dict
       end in
     let filter_dict :=
       match q with
       | Some (String _ _ as q) =>
           (* Simple text search across name and tags *)
           (filter_dict ++ [Or [Field "name" (Regex q "i");
                                Field "tags" (In [OStr q])]])%list
       | _ => filter_dict
       end in
     let* docs := get_documents "chocolate" (And filter_dict) limit in
     ret (expose_id <$> docs))
    (fun e => raise (HTTPException 500 (str e))).

(** The default of the [limit] parameter. *)
Definition default_limit : Z := 50.

(** [get_chocolate] *)
Definition get_chocolate {runtime : Runtime} {regex : RegexEngine} (choc_id : string) : M state dict :=
  try_except
    (let* none := db_is_None in
     if none then raise (Exception "Database not available")
     else
       let* oid := lift (Bson.ObjectId_of choc_id) in
       let* doc := on_db (find_one "chocolate" (And [Field "_id" (Eq (OId oid))])) in
       match doc with
       | None => raise (HTTPException 404 "Chocolate not found")
       | Some doc => ret (expose_id doc)
       end)
    (fun e =>
       match e with
       | HTTPException _ _ => raise e
       | _ => raise (HTTPException 500 (str e))
       end).

Definition sample (name description : string) (price : float) (category : string)
    (cacao_percent : Z) (image : string) (tags : list string) (in_stock : bool) : dict :=
  <["name" := VStr name]> (
  <["description" := VStr description]> (
  <["price" := VFloat price]> (
  <["category" := VStr category]> (
  <["cacao_percent" := VInt cacao_percent]> (
  <["image" := VStr image]> (
  <["tags" := VList (VStr <$> tags)]> (
  <["in_stock" := VBool in_stock]> ∅))))))).

Definition samples : list dict := [
  sample "Sea Salt Caramel Truffle"
         "Silky caramel center with a kiss of sea salt, enrobed in dark chocolate."
         3.5 "Truffle" 70
         "https://images.unsplash.com/photo-1541781774459-bb2af2f05b55?q=80&w=1600&auto=format&fit=crop"
         ["caramel"; "salted"; "dark"] true;
  sample "Hazelnut Praline Bonbon"
         "Roasted hazelnut praline with a creamy finish, dipped in milk chocolate."
         3.0 "Bonbon" 45
         "https://images.unsplash.com/photo-1606313564200-e75d5e30476c?q=80&w=1600&auto=format&fit=crop"
         ["hazelnut"; "praline"; "milk"] true;
  sample "Raspberry Velvet Heart"
         "Tart raspberry ganache balanced with rich dark chocolate in a heart shell."
         3.2 "Bonbon" 64
         "https://images.unsplash.com/photo-1585145197082-583a1a5b86b8?q=80&w=1600&auto=format&fit=crop"
         ["raspberry"; "fruit"; "dark"] true;
  sample "Almond Crunch Bar"
         "Toasted almond nibs folded into a crisp 72% dark chocolate bar."
         6.5 "Bar" 72
         "https://images.unsplash.com/photo-1624378439575-d8705ad7ae80?q=80&w=1600&auto=format&fit=crop"
         ["almond"; "bar"; "dark"] true
].

(** [seed_chocolates] *)
Definition seed_chocolates {regex : RegexEngine} : M state dict :=
  try_except
    (let* none := db_is_None in
     if none then raise (Exception "Database not available")
     else
       let* count := on_db (count_documents "chocolate" (And [])) in
       if (count >? 0)%Z then
         ret (<["inserted" := VInt 0]> (
              <["message" := VStr "Collection already has data"]> ∅) : dict)
       else
         let* inserted_ids := on_db (insert_many "chocolate" samples) in
         ret ({[ "inserted" := VInt (Z.of_nat (length inserted_ids)) ]} : dict))
    (fun e => raise (HTTPException 500 (str e))).

End main.

(* ===================================================================== *)
(** ** What the specification says, in its own words *)
(* ===================================================================== *)

Module spec.
Import Mongo.

(** [needle] occurs in [s] as a contiguous substring. *)
Fixpoint contains (needle s : string) : bool :=
  String.prefix needle s ||
  match s with
  | "" => false
  | String _ s' => contains needle s'
  end.

(** "name contains q (case-insensitive substring)": the two texts are
    compared after the case folding [fold]. *)
Definition name_contains (fold : string -> string) (q : string) (d : document) : bool :=
  match fields d !! "name" with
  | Some (VStr n) => contains (fold q) (fold n)
  | _ => false
  end.

(** "tag sequence contains q exactly" *)
Definition tags_contain (q : string) (d : document) : bool :=
  match fields d !! "tags" with
  | Some (VList l) => existsb (fun v => match v with VStr t => String.eqb t q | _ => false end) l
  | _ => false
  end.

(** "category field equals c exactly (case-sensitive)" *)
Definition category_is (c : string) (d : document) : bool :=
  match fields d !! "category" with
  | Some (VStr s) => String.eqb s c
  | _ => false
  end.

(** The name, as far as a pattern matcher [search] is concerned. *)
Definition name_matches (search : string -> bool) (d : document) : bool :=
  match fields d !! "name" with
  | Some (VStr n) => search n
  | _ => false
  end.

(** A stored document has the shape of a product record (section 3):
    name and category are text, tags is a sequence of strings (or null,
    which the create payload allows). *)
Definition is_string (v : value) : bool :=
  match v with VStr _ => true | _ => false end.

Definition product_record (d : document) : bool :=
  match fields d !! "name", fields d !! "category", fields d !! "tags" with
  | Some (VStr _), Some (VStr _), Some (VList l) => forallb is_string l
  | Some (VStr _), Some (VStr _), Some VNone => true
  | _, _, _ => false
  end.

(** A query string without regular-expression metacharacters that the
    server takes as a pattern (no NUL character, at most 32764 bytes). *)
Definition plain (q : string) : bool :=
  forallb (fun c => negb (Pcre.metacharacter c)) (String.list_ascii_of_string q) &&
  Pcre.accepted q.


(** The status code of a response: 200 for a returned value, the code of
    the [HTTPException] otherwise (any other exception leaving a handler
    is answered with 500 by the framework). *)
Definition status_code {A} (r : Py.outcome A) : Z :=
  match r with
  | Py.Returned _ => 200
  | Py.Raised (Py.HTTPException code _) => code
  | Py.Raised _ => 500
  end.

(** A character that can occur in an identifier that [ObjectId] accepts:
    a hexadecimal digit or whitespace. *)
Definition hex_digits : list ascii := String.list_ascii_of_string "0123456789abcdefABCDEF".

Definition hex_or_space (c : ascii) : bool :=
  existsb (Ascii.eqb c) hex_digits || Bson.is_space c.

(** The identifier that the driver generates next. *)
Definition next_oid (db : Database) : Bson.ObjectId := Bson.generated (oid_counter db).

(** A record that can be stored: it has no identifier yet, its integers
    fit in eight bytes, and its encoding, with the identifier that the
    driver adds, is no larger than the server stores. *)
Definition storable_record (doc : dict) : bool :=
  bool_decide (doc !! "_id" = None) && encodable doc &&
  (document_size doc + element_size "_id" 12 <=? max_bson_size)%N.



(** The database once [doc] has been inserted into collection [c] under
    the next identifier. *)
Definition inserted (c : string) (doc : dict) (db : Database) : Database :=
  {| name := name db;
     fault := fault db;
     collections :=
       <[c := (collection db c ++ [{| _id := IdObjectId (next_oid db); fields := doc |}])%list]>
         (collections db);
     oid_counter := oid_counter db + 1;
     too_large := too_large db |}.

Definition inserted_all (c : string) (docs : list dict) (db : Database) : Database :=
  fold_left (fun db doc => inserted c doc db) docs db.

(** The status text that the diagnostic reports for the store. *)
Definition diagnostic (db : database.state) : string :=
  match db with
  | None => "⚠️  Available but not initialized"
  | Some handle =>
      match fault handle with
      | None => "✅ Connected & Working"
      | Some text => "⚠️  Connected but Error: " ++ Py.slice_to 50 text
      end
  end.

(** The names in a returned list of records. *)
Definition names (r : Py.outcome (list dict)) : list (option value) :=
  match r with
  | Py.Returned items => (fun item : dict => item !! "name") <$> items
  | Py.Raised _ => []
  end.

(** The answer of the seed operation when the collection has data. *)
Definition already_seeded : dict :=
  <["inserted" := VInt 0]> (<["message" := VStr "Collection already has data"]> ∅).

(** An outcome that the framework answers with status 200 or with an
    [HTTPException] of status 500. *)
Definition ok_or_500 {A} (r : Py.outcome A) : Prop :=
  match r with
  | Py.Returned _ => True
  | Py.Raised (Py.HTTPException code _) => code = 500%Z
  | Py.Raised _ => False
  end.

(** As [ok_or_500], or the not-found answer of get-by-id. *)
Definition ok_404_or_500 {A} (r : Py.outcome A) : Prop :=
  match r with
  | Py.Returned _ => True
  | Py.Raised (Py.HTTPException code detail) =>
      (code = 404%Z /\ detail = "Chocolate not found") \/ code = 500%Z
  | Py.Raised _ => False
  end.

(** The keys of the diagnostic report. *)
Definition report_keys : gset string :=
  list_to_set ["backend"; "database"; "database_url"; "database_name";
               "connection_status"; "collections"].

(** A field of a returned response. *)
Definition response_field (r : Py.outcome dict) (key : string) : option value :=
  match r with
  | Py.Returned response => response !! key
  | Py.Raised _ => None
  end.

End spec.

(** A database used in the examples: the four samples, stored under the
    identifiers 0 to 3. *)
Module example.
Import Mongo.

(** The text with which the server of the examples refuses a document
    that is too large. *)
Definition refusal (size : N) : string :=
  "object to insert too large. size in bytes: " ++ pretty size.

Definition chocolates : list document :=
  imap (fun i doc => {| _id := IdObjectId (Bson.generated (N.of_nat i)); fields := doc |})
       main.samples.

Definition shop : Database :=
  {| name := "shop"; fault := None;
     collections := {[ "chocolate" := chocolates ]};
     oid_counter := 4; too_large := refusal |}.

Definition empty_shop : Database :=
  {| name := "shop"; fault := None; collections := ∅; oid_counter := 0;
     too_large := refusal |}.

Definition unreachable_shop : Database :=
  {| name := "shop"; fault := Some "localhost:27017: [Errno 111] Connection refused";
     collections := ∅; oid_counter := 0; too_large := refusal |}.

(** Two environments in which both settings are present; they differ in
    the value of DATABASE_URL only. *)
Definition env_empty_url : gmap string string :=
  <["DATABASE_URL" := ""]> (<["DATABASE_NAME" := "catalog"]> ∅).

Definition env_full_url : gmap string string :=
  <["DATABASE_URL" := "mongodb://localhost:27017"]> (<["DATABASE_NAME" := "catalog"]> ∅).

Definition env_other_url : gmap string string :=
  <["DATABASE_URL" := "mongodb://db.example:27017"]> (<["DATABASE_NAME" := "orders"]> ∅).



(** The same body with an explicit null for tags. *)
Definition null_tags_bar : main.body :=
  {| main.body_name := "Test Bar"; main.body_description := "d";
     main.body_price := 5.0; main.body_category := "Bar";
     main.body_cacao_percent := None; main.body_image := None;
     main.body_tags := Some None; main.body_in_stock := None |}.

(** A small shop: two plain records in the chocolate collection and one
    document in another collection. *)
Definition plain_bar : document :=
  {| _id := IdObjectId (Bson.generated 10);
     fields := <["name" := VStr "Plain"]> (<["category" := VStr "Bar"]> (
               <["tags" := VList []]> ∅)) |}.

Definition mint_bar : document :=
  {| _id := IdObjectId (Bson.generated 11);
     fields := <["name" := VStr "Mint"]> (<["category" := VStr "Bar"]> (
               <["tags" := VList [VStr "mint"]]> ∅)) |}.

Definition corner_shop : Database :=
  {| name := "corner"; fault := None;
     collections :=
       <["chocolate" := [plain_bar; mint_bar]]> (
       <["orders" := [{| _id := IdInt 7; fields := {[ "total" := VInt 7 ]} |}]]> ∅);
     oid_counter := 12; too_large := refusal |}.

(** A shop one of whose records was stored under a number by another
    writer. *)
Definition numbered_bar : document :=
  {| _id := IdInt 7;
     fields := <["name" := VStr "Numbered"]> (<["category" := VStr "Bar"]> (
               <["tags" := VList []]> ∅)) |}.

Definition mixed_shop : Database :=
  {| name := "mixed"; fault := None;
     collections := {[ "chocolate" := [plain_bar; numbered_bar] ]};
     oid_counter := 12; too_large := refusal |}.

(** A database with twelve collections. *)
Definition warehouse : Database :=
  {| name := "warehouse"; fault := None;
     collections :=
       list_to_map ((fun c => (c, [])) <$>
         ["a"; "b"; "c"; "d"; "e"; "f"; "g"; "h"; "i"; "j"; "k"; "l"]);
     oid_counter := 0; too_large := refusal |}.

End example.


(* ===================================================================== *)
(** ** Properties *)
(* ===================================================================== *)

Local Open Scope list_scope.

(** *** ObjectId: parsing the printed form *)

Module BsonFacts.
Import Bson.
Local Open Scope N_scope.

(** Reading back the two digits printed for a byte. *)
Lemma fromhex_byte (c : ascii) (rest : string) :
  fromhex (String (hex_digit (N_of_ascii c / 16))
                  (String (hex_digit (N_of_ascii c mod 16)) rest))
  = String c <$> fromhex rest.
Proof. destruct c as [[] [] [] [] [] [] [] []]; reflexivity. Qed.

Lemma fromhex_hexlify (b : string) : fromhex (hexlify b) = Some b.
Proof.
  induction b as [|c b IH]; [reflexivity|].
  cbn [hexlify]. rewrite fromhex_byte, IH. reflexivity.
Qed.

Lemma length_hexlify (b : string) :
  String.length (hexlify b) = (2 * String.length b)%nat.
Proof. induction b as [|c b IH]; [reflexivity|]. cbn [hexlify String.length]. lia. Qed.

Lemma length_to_bytes (k : nat) : forall n suffix,
  String.length (to_bytes k n suffix) = (k + String.length suffix)%nat.
Proof.
  induction k as [|k IH]; intros n suffix; [reflexivity|].
  cbn [to_bytes]. rewrite IH. cbn [String.length]. lia.
Qed.

Lemma length_generated (n : N) : String.length (generated n) = 12%nat.
Proof. unfold generated. by rewrite length_to_bytes. Qed.

(** [ObjectId(str(oid))] is [oid], for an identifier of 12 bytes. *)
Lemma ObjectId_of_str {runtime : Py.Runtime} (oid : ObjectId) :
  String.length oid = 12%nat -> ObjectId_of (str oid) = Py.Returned oid.
Proof.
  intros Hlen. unfold ObjectId_of, str.
  rewrite length_hexlify, Hlen, fromhex_hexlify. reflexivity.
Qed.

(** [ObjectId] raises nothing but [InvalidId]. *)
Lemma ObjectId_of_raises {runtime : Py.Runtime} (s : string) (e : Py.exception) :
  ObjectId_of s = Py.Raised e -> e = Py.InvalidId (invalid_id_message s).
Proof.
  unfold ObjectId_of.
  destruct (String.length s =? 24)%nat; [destruct (fromhex s)|]; congruence.
Qed.

Lemma from_bytes_to_bytes (k : nat) : forall n suffix acc,
  from_bytes acc (to_bytes k n suffix)
  = from_bytes (acc * 256 ^ N.of_nat k + n mod 256 ^ N.of_nat k) suffix.
Proof.
  induction k as [|k IH]; intros n suffix acc.
  - cbn [to_bytes]. rewrite N.mod_1_r. f_equal. cbn. lia.
  - cbn [to_bytes]. rewrite IH. cbn [from_bytes].
    rewrite N_ascii_embedding by (apply N.mod_lt; lia).
    f_equal.
    rewrite Nat2N.inj_succ, N.pow_succ_r'.
    rewrite (N.Div0.mod_mul_r n 256 (256 ^ N.of_nat k)). lia.
Qed.

Lemma from_bytes_generated (n : N) : from_bytes 0 (generated n) = n mod modulus.
Proof. unfold generated. rewrite from_bytes_to_bytes. reflexivity. Qed.

Lemma mod_distinct (n i j : N) :
  i < j -> j < modulus -> (n + i) mod modulus <> (n + j) mod modulus.
Proof.
  intros Hij Hj Heq.
  pose proof (N.div_mod' (n + i) modulus) as Hi.
  pose proof (N.div_mod' (n + j) modulus) as Hj'.
  rewrite Heq in Hi.
  assert (Hm : 0 < modulus) by reflexivity.
  set (a := (n + i) / modulus) in *. set (b := (n + j) / modulus) in *.
  set (r := (n + j) mod modulus) in *.
  assert (Hab : a < b \/ b <= a) by lia.
  destruct Hab as [Hab|Hab]; nia.
Qed.

(** Consecutive values of the generator are distinct identifiers. *)
Lemma generated_distinct (n i j : N) :
  i < j -> j < modulus -> generated (n + i) <> generated (n + j).
Proof.
  intros Hij Hj Heq. apply (mod_distinct n i j Hij Hj).
  by rewrite <- !from_bytes_generated, Heq.
Qed.

(** A string of 24 characters with one that is neither a hexadecimal
    digit nor whitespace is refused, and so is every string of another
    length. *)
Lemma fromhex_foreign (s : string) :
  forallb spec.hex_or_space (String.list_ascii_of_string s) = false -> fromhex s = None.
Proof.
  assert (Hchar : forall c, spec.hex_or_space c = false ->
                            is_space c = false /\ hex_value c = None).
  { intros c. destruct c as [[] [] [] [] [] [] [] []]; vm_compute; intuition congruence. }
  assert (Hlen : forall (n : nat) s, (String.length s <= n)%nat ->
            forallb spec.hex_or_space (String.list_ascii_of_string s) = false ->
            fromhex s = None).
  { clear s. induction n as [|n IH]; intros s Hs Hbad.
    - destruct s; [discriminate|cbn in Hs; lia].
    - destruct s as [|c s]; [discriminate|].
      cbn [String.list_ascii_of_string forallb] in Hbad. cbn [fromhex].
      cbn [String.length] in Hs.
      apply andb_false_iff in Hbad as [Hc|Hrest].
      + destruct (Hchar c Hc) as [-> ->]. reflexivity.
      + destruct (is_space c); [apply IH; [lia|done]|].
        destruct (hex_value c); [|reflexivity].
        destruct s as [|c' s]; [reflexivity|].
        cbn [String.list_ascii_of_string forallb] in Hrest.
        apply andb_false_iff in Hrest as [Hc'|Hrest].
        * destruct (Hchar c' Hc') as [_ ->]. reflexivity.
        * destruct (hex_value c'); [|reflexivity].
          rewrite IH; [reflexivity|cbn [String.length] in Hs; lia|done]. }
  apply (Hlen (String.length s)). lia.
Qed.

Lemma ObjectId_of_refused {runtime : Py.Runtime} (s : string) :
  String.length s <> 24%nat \/
  forallb spec.hex_or_space (String.list_ascii_of_string s) = false ->
  ObjectId_of s = Py.Raised (Py.InvalidId (invalid_id_message s)).
Proof.
  unfold ObjectId_of. intros [Hlen|Hbad].
  - apply Nat.eqb_neq in Hlen. by rewrite Hlen.
  - rewrite (fromhex_foreign _ Hbad). by destruct (String.length s =? 24)%nat.
Qed.

End BsonFacts.

(** *** The driver calls on a reachable server *)

Module MongoFacts.
Import Py Mongo.

Section Queries.
Context {regex : RegexEngine}.

Lemma find_live (c : string) (q : query) (p : document -> bool) (db : Database) :
  fault db = None -> compile q = Returned p ->
  find c q db = (Returned (List.filter p (collection db c)), db).
Proof.
  intros Hfault Hq. unfold find, bind, round_trip, lift, get, ret.
  rewrite Hfault, Hq. reflexivity.
Qed.

Lemma find_rejected (c : string) (q : query) (e : exception) (db : Database) :
  fault db = None -> compile q = Raised e -> find c q db = (Raised e, db).
Proof.
  intros Hfault Hq. unfold find, bind, round_trip, lift.
  rewrite Hfault, Hq. reflexivity.
Qed.

Lemma find_faulty (c : string) (q : query) (text : string) (db : Database) :
  fault db = Some text -> find c q db = (Raised (PyMongoError text), db).
Proof.
  intros Hfault. unfold find, bind, round_trip. rewrite Hfault. reflexivity.
Qed.

Lemma count_all (c : string) (db : Database) :
  fault db = None ->
  count_documents c (And []) db = (Returned (Z.of_nat (length (collection db c))), db).
Proof.
  intros Hfault. unfold count_documents, bind, ret.
  rewrite (find_live c (And []) (fun _ => true) db Hfault eq_refl).
  do 3 f_equal. induction (collection db c) as [|d l IH]; [reflexivity|].
  cbn. by rewrite IH.
Qed.

End Queries.

Lemma has_id_app (oid : Bson.ObjectId) (c1 c2 : list document) :
  has_id oid (c1 ++ c2) = has_id oid c1 || has_id oid c2.
Proof. apply existsb_app. Qed.

Lemma filter_absent (oid : Bson.ObjectId) (c : list document) :
  has_id oid c = false -> List.filter (carries oid) c = [].
Proof.
  induction c as [|d c IH]; [reflexivity|].
  unfold has_id in *. cbn [existsb List.filter]. intros [Hd Hc]%orb_false_iff.
  rewrite Hd. by apply IH.
Qed.


(** A document carries [oid] when that is its identifier and has 12
    bytes. *)
Lemma carries_spec (oid : Bson.ObjectId) (d : document) :
  carries oid d = true <-> _id d = IdObjectId oid /\ String.length oid = 12%nat.
Proof.
  unfold carries. destruct (_id d) as [o| | | |]; cbn; try (split; [done|by intros [? _]]).
  rewrite andb_true_iff, Nat.eqb_eq, String.eqb_eq. split.
  - by intros [? ->].
  - by intros [[= ->] ?].
Qed.

(** The identifier adds one element to the encoding. *)
Lemma document_size_with_id (oid : Bson.ObjectId) (doc : dict) :
  doc !! "_id" = None ->
  document_size (with_id oid doc) = (document_size doc + element_size "_id" 12)%N.
Proof.
  intros Hnone. unfold document_size, with_id.
  rewrite map_fold_insert_L; [cbn [value_size]; lia | intros; lia | exact Hnone].
Qed.

Lemma storable_record_spec (doc : dict) :
  spec.storable_record doc = true ->
  doc !! "_id" = None /\ encodable doc = true /\
  forall oid, (document_size (with_id oid doc) <= max_bson_size)%N.
Proof.
  unfold spec.storable_record.
  intros [[Hnone%bool_decide_eq_true Hints]%andb_true_iff Hsize%N.leb_le]%andb_true_iff.
  split; [exact Hnone|]. split; [exact Hints|].
  intros oid. by rewrite document_size_with_id.
Qed.

Lemma insert_one_fresh (c : string) (doc : dict) (db : Database) :
  fault db = None ->
  spec.storable_record doc = true ->
  has_id (spec.next_oid db) (collection db c) = false ->
  insert_one c doc db = (Returned (spec.next_oid db), spec.inserted c doc db).
Proof.
  intros Hfault (_ & Hints & Hsize)%storable_record_spec Hfresh.
  unfold insert_one, bind, generate_oid, round_trip, get, modify, ret, raise.
  rewrite Hints. cbn [fault with_oid_counter]. rewrite Hfault. cbv zeta.
  fold (spec.next_oid db).
  destruct (N.ltb_spec max_bson_size (document_size (with_id (spec.next_oid db) doc)))
    as [Hlarge|_]; [specialize (Hsize (spec.next_oid db)); lia|].
  change (collection (with_oid_counter db (oid_counter db + 1)) c) with (collection db c).
  rewrite Hfresh. reflexivity.
Qed.

Lemma collection_inserted (c : string) (doc : dict) (db : Database) :
  collection (spec.inserted c doc db) c
  = collection db c ++ [{| _id := IdObjectId (spec.next_oid db); fields := doc |}].
Proof. unfold collection, spec.inserted. cbn [collections]. by rewrite lookup_insert_eq. Qed.

Lemma inserted_all_cons (c : string) (doc : dict) (docs : list dict) (db : Database) :
  spec.inserted_all c (doc :: docs) db = spec.inserted_all c docs (spec.inserted c doc db).
Proof. reflexivity. Qed.

Lemma fault_inserted_all (c : string) (docs : list dict) : forall db,
  fault (spec.inserted_all c docs db) = fault db.
Proof.
  induction docs as [|doc docs IH]; intros db; [reflexivity|].
  by rewrite inserted_all_cons, IH.
Qed.

Lemma fields_inserted_all (c : string) (docs : list dict) : forall db,
  fields <$> collection (spec.inserted_all c docs db) c
  = (fields <$> collection db c) ++ docs.
Proof.
  induction docs as [|doc docs IH]; intros db.
  - cbn. by rewrite app_nil_r.
  - rewrite inserted_all_cons, IH, collection_inserted, fmap_app, <- app_assoc. reflexivity.
Qed.

Lemma has_id_generated (m n : N) (doc : dict) :
  m <> n -> (m < n + Bson.modulus)%N -> (n < m + Bson.modulus)%N ->
  has_id (Bson.generated m) [{| _id := IdObjectId (Bson.generated n); fields := doc |}] = false.
Proof.
  intros Hne Hm Hn. unfold has_id, carries. cbn [existsb _id id_value operand_eqb].
  rewrite orb_false_r. apply andb_false_iff. right.
  apply String.eqb_neq.
  destruct (N.lt_ge_cases m n) as [Hlt|Hge].
  - replace n with (m + (n - m))%N by lia.
    rewrite <- (N.add_0_r m) at 1.
    apply BsonFacts.generated_distinct; lia.
  - intros Heq. symmetry in Heq. revert Heq.
    replace m with (n + (m - n))%N by lia.
    rewrite <- (N.add_0_r n) at 1.
    apply BsonFacts.generated_distinct; lia.
Qed.

(** The identifiers generated for [k] documents in a row. *)
Lemma insert_each_fresh (c : string) (docs : list dict) : forall db,
  fault db = None ->
  forallb spec.storable_record docs = true ->
  (N.of_nat (length docs) <= Bson.modulus)%N ->
  (forall i, (i < length docs)%nat ->
     has_id (Bson.generated (oid_counter db + N.of_nat i)) (collection db c) = false) ->
  insert_each c docs db
  = (Returned (imap (fun i _ => Bson.generated (oid_counter db + N.of_nat i)) docs),
     spec.inserted_all c docs db).
Proof.
  induction docs as [|doc docs IH]; intros db Hfault Hdocs Hlen Hfresh; [reflexivity|].
  cbn [forallb] in Hdocs. apply andb_true_iff in Hdocs as [Hdoc Hdocs].
  cbn [insert_each]. unfold bind.
  rewrite insert_one_fresh; [|done|done|].
  2:{ specialize (Hfresh 0%nat). cbn in Hfresh. unfold spec.next_oid.
      rewrite N.add_0_r in Hfresh. apply Hfresh. lia. }
  rewrite IH; [| done | done | cbn [length] in Hlen; lia |].
  - cbn [spec.inserted oid_counter ret imap]. unfold spec.next_oid.
    rewrite N.add_0_r. unfold ret. do 3 f_equal.
    apply imap_ext. intros i d _. unfold compose. f_equal. lia.
  - intros i Hi. rewrite collection_inserted, has_id_app.
    cbn [spec.inserted oid_counter].
    apply orb_false_iff. split.
    + replace (oid_counter db + 1 + N.of_nat i)%N with (oid_counter db + N.of_nat (S i))%N by lia.
      apply Hfresh. cbn [length]. lia.
    + unfold spec.next_oid. cbn [length] in Hlen.
      apply has_id_generated; lia.
Qed.

Lemma storable_records_encodable (docs : list dict) :
  forallb spec.storable_record docs = true -> forallb encodable docs = true.
Proof.
  rewrite !forallb_forall. intros Hdocs doc Hdoc.
  by apply storable_record_spec, Hdocs.
Qed.

End MongoFacts.

(** *** Facts about the handlers *)

Module mainFacts.
Import Py Mongo database main MongoFacts.

Lemma expose_id_fields (d : document) :
  fields d !! "_id" = None ->
  expose_id d = <["id" := VStr (str_id (_id d))]> (fields d).
Proof.
  intros Hnone. unfold expose_id, to_dict.
  rewrite delete_insert_ne by done.
  rewrite delete_insert_eq. rewrite delete_id; done.
Qed.

Lemma expose_id_lookup (d : document) (key : string) :
  key <> "id" -> key <> "_id" -> expose_id d !! key = fields d !! key.
Proof.
  intros Hid H_id. unfold expose_id, to_dict.
  rewrite lookup_delete_ne by done.
  rewrite lookup_insert_ne by done.
  by rewrite lookup_insert_ne.
Qed.

Lemma expose_id_id (d : document) :
  expose_id d !! "id" = Some (VStr (str_id (_id d))).
Proof.
  unfold expose_id. rewrite lookup_delete_ne by done. apply lookup_insert_eq.
Qed.

Lemma expose_id_no_internal_id (d : document) : expose_id d !! "_id" = None.
Proof. unfold expose_id. apply lookup_delete_eq. Qed.



(** The schema of the specification makes the record of the keyword
    arguments it is given for every payload whose tags are not null,
    whatever it does with the others. *)
Lemma as_specified_model_dump (null_tags : dict -> outcome dict) (payload : ChocolateCreate) :
  tags payload <> None ->
  schemas.Chocolate (Schema := schemas.as_specified null_tags) (model_dump payload)
  = Returned (model_dump payload).
Proof.
  intros Htags. unfold schemas.Chocolate, schemas.as_specified.
  destruct payload as [n d p c cp im [tg|] st]; [reflexivity|done].
Qed.

Lemma collections_inserted_all_other (c c' : string) (docs : list dict) : forall db,
  c' <> c -> collection (spec.inserted_all c docs db) c' = collection db c'.
Proof.
  induction docs as [|doc docs IH]; intros db Hne; [reflexivity|].
  rewrite inserted_all_cons, IH by done.
  unfold collection, spec.inserted. cbn [collections].
  by rewrite lookup_insert_ne.
Qed.

Lemma name_inserted_all (c : string) (docs : list dict) : forall db,
  Mongo.name (spec.inserted_all c docs db) = Mongo.name db.
Proof.
  induction docs as [|doc docs IH]; intros db; [reflexivity|].
  by rewrite inserted_all_cons, IH.
Qed.

(** The documents that a run of inserts adds, with their identifiers. *)
Lemma collection_inserted_all (c : string) (docs : list dict) : forall db,
  collection (spec.inserted_all c docs db) c
  = collection db c ++
    imap (fun i doc => {| _id := IdObjectId (Bson.generated (oid_counter db + N.of_nat i));
                          fields := doc |}) docs.
Proof.
  induction docs as [|doc docs IH]; intros db.
  - cbn [imap]. by rewrite app_nil_r.
  - rewrite inserted_all_cons, IH, collection_inserted, <- app_assoc.
    f_equal. cbn [imap app]. unfold spec.next_oid. cbn [spec.inserted oid_counter].
    rewrite N.add_0_r. f_equal. apply imap_ext. intros i d _. unfold compose.
    do 3 f_equal. lia.
Qed.

Lemma samples_without_id (s : dict) : s ∈ samples -> s !! "_id" = None.
Proof.
  intros Hs. unfold samples in Hs.
  repeat (apply elem_of_cons in Hs as [->|Hs]; [reflexivity|]).
  by apply elem_of_nil in Hs.
Qed.

Lemma samples_storable : forallb spec.storable_record samples = true.
Proof. vm_compute. reflexivity. Qed.

Section Handlers.
Context {runtime : Runtime} {regex : RegexEngine} {schema : schemas.Schema}.

Lemma by_id_spec (oid : Bson.ObjectId) :
  compile (And [Field "_id" (Eq (OId oid))])
  = Returned (fun d => field_matches (operand_eqb (OId oid)) (to_dict d !! "_id") && true).
Proof. reflexivity. Qed.

Lemma by_id_carries (oid : Bson.ObjectId) (d : document) :
  field_matches (operand_eqb (OId oid)) (to_dict d !! "_id") && true = carries oid d.
Proof.
  unfold to_dict, carries. rewrite lookup_insert_eq, andb_true_r.
  by destruct (_id d).
Qed.

(** What get-by-id answers on a reachable server once the identifier is
    parsed: the first document that carries it, or 404. *)
Lemma get_chocolate_live (choc_id : string) (oid : Bson.ObjectId) (db : Database) :
  fault db = None ->
  Bson.ObjectId_of choc_id = Returned oid ->
  get_chocolate choc_id (Some db)
  = (match head (List.filter (carries oid) (collection db "chocolate")) with
     | Some d => Returned (expose_id d)
     | None => Raised (HTTPException 404 "Chocolate not found")
     end, Some db).
Proof.
  intros Hfault Hoid.
  unfold get_chocolate, find_one, try_except, on_db, bind, db_is_None, lift, ret.
  rewrite Hoid, (find_live _ _ _ _ Hfault (by_id_spec _)).
  rewrite (List.filter_ext _ _ (by_id_carries _)).
  by destruct (List.filter (carries oid) (collection db "chocolate")).
Qed.


(** The first stored document with a given identifier is the one that
    get-by-id returns. *)
Lemma get_chocolate_at (c1 c2 : list document) (d : document) (oid : Bson.ObjectId)
    (db : Database) :
  fault db = None ->
  collection db "chocolate" = c1 ++ d :: c2 ->
  _id d = IdObjectId oid ->
  String.length oid = 12%nat ->
  has_id oid c1 = false ->
  get_chocolate (Bson.str oid) (Some db) = (Returned (expose_id d), Some db).
Proof.
  intros Hfault Hcoll Hid Hlen Hfresh.
  rewrite (get_chocolate_live _ oid db Hfault (BsonFacts.ObjectId_of_str _ Hlen)).
  rewrite Hcoll, List.filter_app, (filter_absent _ _ Hfresh).
  cbn [List.filter app].
  by rewrite (proj2 (carries_spec oid d) (conj Hid Hlen)).
Qed.

(** An identifier that no stored record carries: 404. *)
Lemma get_chocolate_absent (choc_id : string) (oid : Bson.ObjectId) (db : Database) :
  fault db = None ->
  Bson.ObjectId_of choc_id = Returned oid ->
  has_id oid (collection db "chocolate") = false ->
  get_chocolate choc_id (Some db)
  = (Raised (HTTPException 404 "Chocolate not found"), Some db).
Proof.
  intros Hfault Hoid Habsent.
  by rewrite (get_chocolate_live _ oid db Hfault Hoid), (filter_absent _ _ Habsent).
Qed.

Lemma seed_chocolates_nonempty (db : Database) :
  fault db = None ->
  collection db "chocolate" <> [] ->
  seed_chocolates (Some db) = (Returned spec.already_seeded, Some db).
Proof.
  intros Hfault Hdata.
  unfold seed_chocolates, try_except, on_db, bind, db_is_None.
  rewrite (count_all _ _ Hfault).
  destruct (collection db "chocolate") as [|d l]; [done|]. reflexivity.
Qed.

Lemma seed_chocolates_empty (db : Database) :
  fault db = None ->
  collection db "chocolate" = [] ->
  seed_chocolates (Some db)
  = (Returned {[ "inserted" := VInt 4 ]}, Some (spec.inserted_all "chocolate" samples db)).
Proof.
  intros Hfault Hempty.
  unfold seed_chocolates, try_except, on_db, bind, db_is_None.
  rewrite (count_all _ _ Hfault), Hempty.
  change (Z.of_nat (length []) >? 0)%Z with false. cbv beta iota.
  unfold insert_many.
  change samples with (sample "Sea Salt Caramel Truffle"
         "Silky caramel center with a kiss of sea salt, enrobed in dark chocolate."
         3.5 "Truffle" 70
         "https://images.unsplash.com/photo-1541781774459-bb2af2f05b55?q=80&w=1600&auto=format&fit=crop"
         ["caramel"; "salted"; "dark"] true :: tl samples) at 1.
  cbv beta iota.
  rewrite (storable_records_encodable _ samples_storable).
  rewrite insert_each_fresh.
  - unfold ret. rewrite length_imap. reflexivity.
  - exact Hfault.
  - exact samples_storable.
  - vm_compute. discriminate.
  - intros i _. rewrite Hempty. reflexivity.
Qed.

Lemma seed_chocolates_faulty (db : Database) (text : string) :
  fault db = Some text ->
  seed_chocolates (Some db) = (Raised (HTTPException 500 text), Some db).
Proof.
  intros Hfault.
  unfold seed_chocolates, count_documents, try_except, on_db, bind, db_is_None.
  rewrite (find_faulty _ _ _ _ Hfault). reflexivity.
Qed.

End Handlers.
End mainFacts.

(** *** Get by id *)

Section GetById.
Import Py Mongo database main MongoFacts mainFacts.
Context {runtime : Runtime} {regex : RegexEngine} {schema : schemas.Schema}.

(** C1, as amended.  An identifier that [ObjectId] refuses (its length is
    not 24, or it is not a run of two-digit hexadecimal bytes with
    optional whitespace between them) is answered with status 500, not
    404: [ObjectId] raises [InvalidId], which is not an [HTTPException],
    so the catch-all handler turns it into a server error whose detail is
    the message of the exception (or "Database not available" when there
    is no connection).  The store is left as it was. *)
Theorem get_chocolate_malformed (db : state) (choc_id : string) :
  String.length choc_id <> 24%nat \/ Bson.fromhex choc_id = None ->
  get_chocolate choc_id db
  = (Raised (HTTPException 500
       match db with
       | Some _ => Bson.invalid_id_message choc_id
       | None => "Database not available"
       end), db).
Proof.
  intros Hbad. unfold get_chocolate, try_except, bind, db_is_None, lift, raise.
  destruct db as [handle|]; [|reflexivity].
  assert (Hraised : Bson.ObjectId_of choc_id
                    = Raised (InvalidId (Bson.invalid_id_message choc_id))).
  { unfold Bson.ObjectId_of.
    destruct (Nat.eqb_spec (String.length choc_id) 24) as [Hlen|_]; [|reflexivity].
    destruct Hbad as [Hne| ->]; [done|reflexivity]. }
  rewrite Hraised. reflexivity.
Qed.


End GetById.

(** C1: the identifier ["not-an-id"] is malformed, and the answer on a
    reachable store is status 500 rather than 404. *)
Lemma get_chocolate_malformed_is_500 :
  String.length "not-an-id" <> 24%nat /\
  (main.get_chocolate (runtime := Py.ascii_repr) (regex := Pcre.plain_only)
     "not-an-id" (Some example.shop)).1
  = Py.Raised (Py.HTTPException 500
      "'not-an-id' is not a valid ObjectId, it must be a 12-byte input or a 24-character hex string") /\
  spec.status_code
    (main.get_chocolate (runtime := Py.ascii_repr) (regex := Pcre.plain_only)
       "not-an-id" (Some example.shop)).1 <> 404%Z.
Proof. repeat split; vm_compute; congruence. Qed.

Lemma get_chocolate_malformed_witness :
  (String.length "not-an-id" <> 24%nat \/ Bson.fromhex "not-an-id" = None) /\
  main.get_chocolate (runtime := Py.ascii_repr) (regex := Pcre.plain_only)
    "not-an-id" (Some example.shop)
  = (Py.Raised (Py.HTTPException 500
       (Bson.invalid_id_message (runtime := Py.ascii_repr) "not-an-id")),
     Some example.shop).
Proof.
  split; [left; vm_compute; discriminate|].
  apply (get_chocolate_malformed (runtime := Py.ascii_repr) (regex := Pcre.plain_only)
           (Some example.shop) "not-an-id").
  left. vm_compute. discriminate.
Defined.

(** An identifier of 24 characters with blanks between its bytes is
    accepted by [ObjectId]; no record carries it, and the answer is 404. *)
Lemma get_chocolate_spaced_id :
  (main.get_chocolate (runtime := Py.ascii_repr) (regex := Pcre.plain_only)
     "0000 0000 0000 0000 0000" (Some example.shop)).1
  = Py.Raised (Py.HTTPException 404 "Chocolate not found").
Proof. vm_compute. reflexivity. Qed.



(** *** Seed *)

Section Seed.
Import Py Mongo database main MongoFacts mainFacts.
Context {regex : RegexEngine}.

(** C3.  On a reachable store: when the collection is empty, seeding
    inserts exactly the four samples and reports 4, and seeding again
    reports 0 with the "already has data" message and changes nothing;
    when the collection has a record, seeding reports 0 with that message
    and leaves the store as it was. *)
Theorem seed_chocolates_once (db : Database) :
  fault db = None ->
  (collection db "chocolate" = [] ->
   exists db' : Database,
     seed_chocolates (Some db) = (Returned {[ "inserted" := VInt 4 ]}, Some db') /\
     fields <$> collection db' "chocolate" = samples /\
     length (collection db' "chocolate") = 4%nat /\
     seed_chocolates (Some db') = (Returned spec.already_seeded, Some db')) /\
  (collection db "chocolate" <> [] ->
   seed_chocolates (Some db) = (Returned spec.already_seeded, Some db)).
Proof.
  intros Hfault. split; [|by apply seed_chocolates_nonempty].
  intros Hempty.
  exists (spec.inserted_all "chocolate" samples db).
  assert (Hfields : fields <$> collection (spec.inserted_all "chocolate" samples db) "chocolate"
                    = samples).
  { rewrite fields_inserted_all, Hempty. reflexivity. }
  split; [|split; [exact Hfields|split]].
  - by apply seed_chocolates_empty.
  - apply (f_equal length) in Hfields. rewrite length_fmap in Hfields.
    rewrite Hfields. reflexivity.
  - apply seed_chocolates_nonempty.
    + by rewrite fault_inserted_all.
    + intros Hnil. rewrite Hnil in Hfields. discriminate Hfields.
Qed.

End Seed.

Lemma seed_chocolates_once_witness :
  Mongo.fault example.empty_shop = None /\
  (Mongo.collection example.empty_shop "chocolate" = [] ->
   exists db' : Mongo.Database,
     main.seed_chocolates (regex := Pcre.plain_only) (Some example.empty_shop)
     = (Py.Returned {[ "inserted" := Mongo.VInt 4 ]}, Some db') /\
     Mongo.fields <$> Mongo.collection db' "chocolate" = main.samples /\
     length (Mongo.collection db' "chocolate") = 4%nat /\
     main.seed_chocolates (regex := Pcre.plain_only) (Some db')
     = (Py.Returned spec.already_seeded, Some db')) /\
  (Mongo.collection example.empty_shop "chocolate" <> [] ->
   main.seed_chocolates (regex := Pcre.plain_only) (Some example.empty_shop)
   = (Py.Returned spec.already_seeded, Some example.empty_shop)).
Proof.
  split; [reflexivity|].
  apply (seed_chocolates_once (regex := Pcre.plain_only) example.empty_shop). reflexivity.
Defined.

(** *** Create: the tags of a payload *)

Section Create.
Import Py Mongo database main.


End Create.

(** *** List *)

Module listFacts.
Import Py Mongo database main MongoFacts mainFacts.

(** On product records the three tests of the filter are the conditions
    of the specification. *)
Lemma category_test (c : string) (d : document) :
  spec.product_record d = true ->
  field_matches (operand_eqb (OStr c)) (to_dict d !! "category") = spec.category_is c d.
Proof.
  unfold spec.product_record, spec.category_is, to_dict.
  rewrite lookup_insert_ne by done.
  destruct (fields d !! "name") as [[]|]; try done.
  destruct (fields d !! "category") as [[]|]; try done.
  intros _. cbn. apply String.eqb_sym.
Qed.

Lemma name_test (search : string -> bool) (d : document) :
  spec.product_record d = true ->
  field_matches (fun v => match v with VStr s => search s | _ => false end)
                (to_dict d !! "name")
  = spec.name_matches search d.
Proof.
  unfold spec.product_record, spec.name_matches, to_dict.
  rewrite lookup_insert_ne by done.
  by destruct (fields d !! "name") as [[]|].
Qed.

Lemma existsb_pointwise {A} (f g : A -> bool) (l : list A) :
  (forall a, f a = g a) -> existsb f l = existsb g l.
Proof. intros Hfg. induction l as [|a l IH]; [reflexivity|]. cbn. by rewrite Hfg, IH. Qed.

Lemma tags_test (q : string) (d : document) :
  spec.product_record d = true ->
  field_matches (fun v => existsb (fun x => operand_eqb x v) [OStr q]) (to_dict d !! "tags")
  = spec.tags_contain q d.
Proof.
  unfold spec.product_record, spec.tags_contain, to_dict.
  rewrite lookup_insert_ne by done.
  destruct (fields d !! "name") as [[]|]; try done.
  destruct (fields d !! "category") as [[]|]; try done.
  destruct (fields d !! "tags") as [[| | | | |l|]|]; try done.
  intros _. cbn. apply existsb_pointwise. intros [| | | |t| |]; try reflexivity.
  cbn. rewrite orb_false_r. apply String.eqb_sym.
Qed.

Section Engine.
Context {regex : RegexEngine}.

Lemma get_documents_live (q : query) (p : document -> bool) (limit : Z) (db : Database) :
  fault db = None -> compile q = Returned p ->
  get_documents "chocolate" q limit (Some db)
  = (Returned (take (Z.to_nat limit) (List.filter p (collection db "chocolate"))), Some db).
Proof.
  intros Hfault Hq. unfold get_documents, on_db, bind, db_is_None, ret.
  rewrite (find_live _ _ _ _ Hfault Hq). reflexivity.
Qed.

(** The records selected for a truthy category, a truthy query, or both. *)
Lemma list_chocolates_both (db : Database) (c q : string) (search : string -> bool) (limit : Z) :
  fault db = None ->
  forallb spec.product_record (collection db "chocolate") = true ->
  c <> "" -> q <> "" ->
  regex_compile q "i" = Returned search ->
  list_chocolates (Some c) (Some q) limit (Some db)
  = (Returned (expose_id <$> take (Z.to_nat limit)
       (List.filter (fun d => spec.category_is c d &&
                              (spec.name_matches search d || spec.tags_contain q d))
                    (collection db "chocolate"))), Some db).
Proof.
  intros Hfault Hrecords Hc Hq Hsearch.
  destruct c as [|a c]; [done|]. destruct q as [|b q]; [done|].
  unfold list_chocolates, try_except, bind. cbv zeta.
  erewrite get_documents_live; [| exact Hfault |].
  2:{ cbn [compile compile_condition app]. rewrite Hsearch. reflexivity. }
  unfold ret. do 4 f_equal. apply List.filter_ext_in.
  intros d Hd. rewrite forallb_forall in Hrecords. specialize (Hrecords d Hd).
  cbv beta. rewrite category_test, name_test, tags_test by done.
  by rewrite orb_false_r, andb_true_r.
Qed.

Lemma list_chocolates_category_only (db : Database) (c : string) (q : option string) (limit : Z) :
  fault db = None ->
  forallb spec.product_record (collection db "chocolate") = true ->
  c <> "" -> truthy q = false ->
  list_chocolates (Some c) q limit (Some db)
  = (Returned (expose_id <$> take (Z.to_nat limit)
       (List.filter (spec.category_is c) (collection db "chocolate"))), Some db).
Proof.
  intros Hfault Hrecords Hc Hq.
  destruct c as [|a c]; [done|].
  assert (Hlist : list_chocolates (Some (String a c)) q limit
                  = list_chocolates (Some (String a c)) None limit)
    by (by destruct q as [[|]|]).
  rewrite Hlist.
  unfold list_chocolates, try_except, bind. cbv zeta.
  erewrite get_documents_live; [| exact Hfault | reflexivity].
  unfold ret. do 4 f_equal. apply List.filter_ext_in.
  intros d Hd. rewrite forallb_forall in Hrecords. specialize (Hrecords d Hd).
  cbv beta. rewrite category_test by done. apply andb_true_r.
Qed.

Lemma list_chocolates_query_only (db : Database) (q : string) (search : string -> bool) (limit : Z) :
  fault db = None ->
  forallb spec.product_record (collection db "chocolate") = true ->
  q <> "" ->
  regex_compile q "i" = Returned search ->
  list_chocolates None (Some q) limit (Some db)
  = (Returned (expose_id <$> take (Z.to_nat limit)
       (List.filter (fun d => spec.name_matches search d || spec.tags_contain q d)
                    (collection db "chocolate"))), Some db).
Proof.
  intros Hfault Hrecords Hq Hsearch.
  destruct q as [|b q]; [done|].
  unfold list_chocolates, try_except, bind. cbv zeta.
  erewrite get_documents_live; [| exact Hfault |].
  2:{ cbn [compile compile_condition app]. rewrite Hsearch. reflexivity. }
  unfold ret. do 4 f_equal. apply List.filter_ext_in.
  intros d Hd. rewrite forallb_forall in Hrecords. specialize (Hrecords d Hd).
  cbv beta. rewrite name_test, tags_test by done.
  by rewrite orb_false_r, andb_true_r.
Qed.

Lemma list_chocolates_all (db : Database) (limit : Z) :
  fault db = None ->
  list_chocolates None None limit (Some db)
  = (Returned (expose_id <$> take (Z.to_nat limit) (collection db "chocolate")), Some db).
Proof.
  intros Hfault.
  unfold list_chocolates, try_except, bind. cbv zeta.
  erewrite get_documents_live; [| exact Hfault | reflexivity].
  unfold ret. do 4 f_equal.
  induction (collection db "chocolate") as [|d l IH]; [reflexivity|].
  cbn. by rewrite IH.
Qed.

End Engine.
End listFacts.

(** *** Literal patterns are substring tests *)

Module PcreFacts.
Import Py Pcre.

Lemma literal_plain (q : string) : literal q && accepted q = spec.plain q.
Proof.
  unfold spec.plain. f_equal. induction q as [|c q IH]; [reflexivity|].
  cbn [literal String.list_ascii_of_string forallb]. by rewrite IH.
Qed.

Lemma starts_with_prefix (needle : string) : forall s,
  starts_with needle s = String.prefix needle s.
Proof.
  induction needle as [|a needle IH]; intros s; [by destruct s|].
  destruct s as [|b s]; [reflexivity|].
  cbn [starts_with String.prefix]. rewrite IH.
  destruct (ascii_dec a b) as [->|Hne].
  - by rewrite Ascii.eqb_refl.
  - apply Ascii.eqb_neq in Hne. by rewrite Hne.
Qed.

Lemma occurs_contains (needle s : string) : occurs needle s = spec.contains needle s.
Proof.
  induction s as [|x s IH].
  - cbn [occurs spec.contains]. by rewrite starts_with_prefix.
  - cbn [occurs spec.contains]. by rewrite starts_with_prefix, IH.
Qed.

Lemma contains_empty (s : string) : spec.contains "" s = true.
Proof. by destruct s. Qed.

(** What the engine makes of a caseless pattern without
    metacharacters. *)
Lemma engine_plain (fold : string -> string) (other : Mongo.RegexEngine) (q : string) :
  spec.plain q = true ->
  engine fold other q "i" = Returned (fun s => occurs (fold q) (fold s)).
Proof. intros Hq. unfold engine. cbn [caseless_of String.eqb Ascii.eqb Bool.eqb].
  by rewrite literal_plain, Hq. Qed.

End PcreFacts.

Section List.
Import Py Mongo database main MongoFacts mainFacts listFacts.

(** C4, as amended.  With the query interpreted by an engine that finds
    a metacharacter-free pattern, under the option for caseless matching,
    wherever the pattern and the text agree after case folding: on a
    reachable store of product records, for a query string [q] without
    regular-expression metacharacters the list operation returns, in
    store order and cut off after [limit] records, exactly the records
    whose name contains [q] as a case-insensitive substring or whose tags
    contain the exact string [q]. *)
Theorem list_chocolates_plain_query
    (fold : string -> string) (other : RegexEngine) (db : Database) (q : string) (limit : Z) :
  fold "" = "" ->
  fault db = None ->
  forallb spec.product_record (collection db "chocolate") = true ->
  spec.plain q = true ->
  list_chocolates (regex := Pcre.engine fold other) None (Some q) limit (Some db)
  = (Returned (expose_id <$> take (Z.to_nat limit)
       (List.filter (fun d => spec.name_contains fold q d || spec.tags_contain q d)
                    (collection db "chocolate"))), Some db).
Proof.
  intros Hfold Hfault Hrecords Hplain.
  destruct (decide (q = "")) as [->|Hq].
  - change (list_chocolates (regex := Pcre.engine fold other) None (Some "") limit)
      with (list_chocolates (regex := Pcre.engine fold other) None None limit).
    rewrite (list_chocolates_all _ _ Hfault). do 4 f_equal.
    rewrite forallb_forall in Hrecords.
    induction (collection db "chocolate") as [|d l IH]; [reflexivity|].
    cbn [List.filter].
    assert (Hd : spec.name_contains fold "" d = true).
    { specialize (Hrecords d (or_introl eq_refl)).
      unfold spec.product_record in Hrecords. unfold spec.name_contains.
      destruct (fields d !! "name") as [[]|]; try done.
      rewrite Hfold. apply PcreFacts.contains_empty. }
    rewrite Hd. cbn. f_equal. apply IH. intros x Hx. apply Hrecords. by right.
  - rewrite (list_chocolates_query_only (regex := Pcre.engine fold other) db q _ limit
               Hfault Hrecords Hq (PcreFacts.engine_plain fold other q Hplain)).
    do 4 f_equal. apply List.filter_ext. intros d. f_equal.
    unfold spec.name_matches, spec.name_contains.
    destruct (fields d !! "name") as [[]|]; try reflexivity.
    apply PcreFacts.occurs_contains.
Qed.

Context {regex : RegexEngine}.

(** C5, as amended.  On a reachable store of product records, a non-empty
    [category] restricts the result to the records whose category field
    is exactly that string; without a text query the result is those
    records, and with a text query [q] (whose pattern the engine accepts
    as [search]) it is the records that pass both the category test and
    the text test, in store order and cut off after [limit] records. *)
Theorem list_chocolates_category
    (db : Database) (c : string) (q : option string) (limit : Z) :
  fault db = None ->
  forallb spec.product_record (collection db "chocolate") = true ->
  c <> "" ->
  (forall items, (list_chocolates (Some c) q limit (Some db)).1 = Returned items ->
     Forall (fun item : dict => item !! "category" = Some (VStr c)) items) /\
  (truthy q = false ->
     list_chocolates (Some c) q limit (Some db)
     = (Returned (expose_id <$> take (Z.to_nat limit)
          (List.filter (spec.category_is c) (collection db "chocolate"))), Some db)) /\
  (forall q' search, q = Some q' -> q' <> "" -> regex_compile q' "i" = Returned search ->
     list_chocolates (Some c) q limit (Some db)
     = (Returned (expose_id <$> take (Z.to_nat limit)
          (List.filter (fun d => spec.category_is c d &&
                                 (spec.name_matches search d || spec.tags_contain q' d))
                       (collection db "chocolate"))), Some db)).
Proof.
  intros Hfault Hrecords Hc.
  assert (Hexposed : forall (p : document -> bool) (l : list document),
            (forall d, p d = true -> spec.category_is c d = true) ->
            Forall (fun item : dict => item !! "category" = Some (VStr c))
                   (expose_id <$> take (Z.to_nat limit) (List.filter p l))).
  { intros p l Hp. apply Forall_fmap, Forall_take, Forall_forall.
    intros d [_ Hd%Hp]%list_elem_of_In%List.filter_In. cbn.
    rewrite expose_id_lookup by done.
    unfold spec.category_is in Hd.
    destruct (fields d !! "category") as [[]|]; try done.
    by apply String.eqb_eq in Hd as ->. }
  split; [|split].
  - intros items Hitems.
    destruct (truthy q) eqn:Hq.
    + destruct q as [[|b q']|]; try done.
      destruct (regex_compile (String b q') "i") as [search|e] eqn:Hsearch.
      * rewrite (list_chocolates_both db c (String b q') search limit Hfault Hrecords Hc
                   ltac:(done) Hsearch) in Hitems.
        injection Hitems as <-. apply Hexposed. by intros d [? _]%andb_true_iff.
      * exfalso. revert Hitems. destruct c as [|a c]; [done|].
        unfold list_chocolates, try_except, get_documents, on_db, bind, db_is_None.
        cbv zeta. rewrite (find_rejected _ _ e _ Hfault); [done|].
        cbn [compile compile_condition app]. by rewrite Hsearch.
    + rewrite (list_chocolates_category_only db c q limit Hfault Hrecords Hc Hq) in Hitems.
      injection Hitems as <-. by apply Hexposed.
  - by apply list_chocolates_category_only.
  - intros q' search -> Hq' Hsearch. by apply list_chocolates_both.
Qed.

(** C9.  An empty [category] or an empty [q] is treated as an absent
    one: the handler is the same function of its other arguments. *)
Theorem list_chocolates_empty_is_absent (category q : option string) (limit : Z) :
  list_chocolates (Some "") q limit = list_chocolates None q limit /\
  list_chocolates category (Some "") limit = list_chocolates category None limit.
Proof. split; reflexivity. Qed.

End List.

Lemma list_chocolates_plain_query_witness :
  Pcre.ascii_fold "" = "" /\
  Mongo.fault example.shop = None /\
  forallb spec.product_record (Mongo.collection example.shop "chocolate") = true /\
  spec.plain "BAR" = true /\
  main.list_chocolates (regex := Pcre.plain_only) None (Some "BAR") 50 (Some example.shop)
  = (Py.Returned (main.expose_id <$> take (Z.to_nat 50)
       (List.filter (fun d => spec.name_contains Pcre.ascii_fold "BAR" d ||
                              spec.tags_contain "BAR" d)
                    (Mongo.collection example.shop "chocolate"))), Some example.shop) /\
  (fun d => Mongo.fields d !! "name") <$>
    List.filter (fun d => spec.name_contains Pcre.ascii_fold "BAR" d ||
                          spec.tags_contain "BAR" d)
                (Mongo.collection example.shop "chocolate")
  = [Some (Mongo.VStr "Almond Crunch Bar")].
Proof.
  split; [reflexivity|]. split; [reflexivity|]. split; [reflexivity|].
  split; [reflexivity|]. split.
  - exact (list_chocolates_plain_query Pcre.ascii_fold
             (fun _ _ => Py.Raised (Py.PyMongoError "Regular expression is invalid"))
             example.shop "BAR" 50 eq_refl eq_refl eq_refl eq_refl).
  - vm_compute. reflexivity.
Defined.

(** C4: the query ["."] is a pattern that every name matches, so all four
    samples are listed although none has a dot in its name or the tag
    ["."]; and with [limit = 2] only two of the three samples tagged
    ["dark"] are listed. *)
Lemma list_chocolates_pattern_and_cap :
  spec.names
    (main.list_chocolates (regex := Pcre.plain_only) None (Some ".") 50 (Some example.shop)).1
  = [Some (Mongo.VStr "Sea Salt Caramel Truffle"); Some (Mongo.VStr "Hazelnut Praline Bonbon");
     Some (Mongo.VStr "Raspberry Velvet Heart"); Some (Mongo.VStr "Almond Crunch Bar")] /\
  List.filter (fun d => spec.name_contains Pcre.ascii_fold "." d || spec.tags_contain "." d)
              (Mongo.collection example.shop "chocolate") = [] /\
  (fun d => Mongo.fields d !! "name") <$>
    List.filter (fun d => spec.name_contains Pcre.ascii_fold "dark" d ||
                          spec.tags_contain "dark" d)
                (Mongo.collection example.shop "chocolate")
  = [Some (Mongo.VStr "Sea Salt Caramel Truffle"); Some (Mongo.VStr "Raspberry Velvet Heart");
     Some (Mongo.VStr "Almond Crunch Bar")] /\
  spec.names
    (main.list_chocolates (regex := Pcre.plain_only) None (Some "dark") 2 (Some example.shop)).1
  = [Some (Mongo.VStr "Sea Salt Caramel Truffle"); Some (Mongo.VStr "Raspberry Velvet Heart")].
Proof. repeat split; vm_compute; reflexivity. Qed.

(** C5: with the empty string as category no filter is applied; all four
    samples are listed although none has the empty category. *)
Lemma list_chocolates_empty_category :
  spec.names
    (main.list_chocolates (regex := Pcre.plain_only) (Some "") None 50 (Some example.shop)).1
  = [Some (Mongo.VStr "Sea Salt Caramel Truffle"); Some (Mongo.VStr "Hazelnut Praline Bonbon");
     Some (Mongo.VStr "Raspberry Velvet Heart"); Some (Mongo.VStr "Almond Crunch Bar")] /\
  List.filter (spec.category_is "") (Mongo.collection example.shop "chocolate") = [].
Proof. split; vm_compute; reflexivity. Qed.

Lemma list_chocolates_category_witness :
  Mongo.fault example.shop = None /\
  forallb spec.product_record (Mongo.collection example.shop "chocolate") = true /\
  "Bonbon" <> "" /\
  (forall items,
     (main.list_chocolates (regex := Pcre.plain_only) (Some "Bonbon") (Some "dark") 50
        (Some example.shop)).1 = Py.Returned items ->
     Forall (fun item : Mongo.dict => item !! "category" = Some (Mongo.VStr "Bonbon")) items).
Proof.
  split; [reflexivity|]. split; [reflexivity|]. split; [discriminate|].
  apply (list_chocolates_category (regex := Pcre.plain_only)
           example.shop "Bonbon" (Some "dark") 50);
    [reflexivity | reflexivity | discriminate].
Defined.
(** *** Diagnostic *)

Section Diagnostic.
Import Py Mongo database main.

Lemma test_database_returns (environ : gmap string string) (db : state) :
  exists response : dict,
    test_database environ db = (Returned response, db) /\
    response !! "database" = Some (VStr (spec.diagnostic db)) /\
    response !! "collections"
    = Some (VList (VStr <$> match db with
                            | Some handle =>
                                match (list_collection_names handle).1 with
                                | Returned cs => take 10 cs
                                | Raised _ => []
                                end
                            | None => []
                            end)) /\
    response !! "database_url"
    = Some (VStr (if truthy (environ !! "DATABASE_URL") then "✅ Set" else "❌ Not Set")) /\
    response !! "database_name"
    = Some (VStr (if truthy (environ !! "DATABASE_NAME") then "✅ Set" else "❌ Not Set")).
Proof.
  destruct db as [handle|].
  - unfold test_database, spec.diagnostic, list_collection_names, round_trip, bind.
    destruct (fault handle) as [text|]; eexists; (split; [reflexivity|]);
      repeat split; reflexivity.
  - eexists. split; [reflexivity|]. repeat split; reflexivity.
Qed.

(** C6.  Whatever the state of the connection (no handle, an unreachable
    server whose call raises an error with any text, or a working one),
    the diagnostic returns a response and leaves the store alone; the
    response's ["database"] entry is the status text for that state, the
    text of a failure cut to 50 characters. *)
Theorem test_database_never_fails (environ : gmap string string) (db : state) :
  exists response : dict,
    test_database environ db = (Returned response, db) /\
    response !! "database" = Some (VStr (spec.diagnostic db)).
Proof.
  destruct (test_database_returns environ db) as (response & Hrun & Hstatus & _).
  by exists response.
Qed.

(** C7.  When the server lists the collections [cs], the response's
    ["collections"] entry is the first ten of them: a prefix of [cs] of
    length at most 10. *)
Theorem test_database_collections
    (environ : gmap string string) (db : Database) (cs : list string) :
  (list_collection_names db).1 = Returned cs ->
  exists response : dict,
    test_database environ (Some db) = (Returned response, Some db) /\
    response !! "collections" = Some (VList (VStr <$> take 10 cs)) /\
    take 10 cs `prefix_of` cs /\
    (length (take 10 cs) <= 10)%nat.
Proof.
  intros Hcs.
  destruct (test_database_returns environ (Some db)) as (response & Hrun & _ & Hcoll & _).
  rewrite Hcs in Hcoll. exists response.
  split; [exact Hrun|]. split; [exact Hcoll|]. split; [apply prefix_take|].
  rewrite length_take. lia.
Qed.

(** C8, as amended.  The two entries depend only on whether each setting
    has a non-empty value: runs whose environments agree on that, for
    any two states of the store, report the same [database_url] and
    [database_name]. *)
Theorem test_database_env_presence
    (environ1 environ2 : gmap string string) (db1 db2 : state) :
  truthy (environ1 !! "DATABASE_URL") = truthy (environ2 !! "DATABASE_URL") ->
  truthy (environ1 !! "DATABASE_NAME") = truthy (environ2 !! "DATABASE_NAME") ->
  spec.response_field (test_database environ1 db1).1 "database_url"
  = spec.response_field (test_database environ2 db2).1 "database_url" /\
  spec.response_field (test_database environ1 db1).1 "database_name"
  = spec.response_field (test_database environ2 db2).1 "database_name".
Proof.
  intros Hurl Hname.
  destruct (test_database_returns environ1 db1) as (r1 & -> & _ & _ & Hurl1 & Hname1).
  destruct (test_database_returns environ2 db2) as (r2 & -> & _ & _ & Hurl2 & Hname2).
  cbn [fst spec.response_field].
  by rewrite Hurl1, Hurl2, Hname1, Hname2, Hurl, Hname.
Qed.

End Diagnostic.

Lemma test_database_collections_witness :
  (Mongo.list_collection_names example.warehouse).1
  = Py.Returned ["g"; "k"; "c"; "e"; "i"; "a"; "f"; "j"; "b"; "l"; "d"; "h"] /\
  exists response : Mongo.dict,
    main.test_database ∅ (Some example.warehouse) = (Py.Returned response, Some example.warehouse) /\
    response !! "collections"
    = Some (Mongo.VList (Mongo.VStr <$> ["g"; "k"; "c"; "e"; "i"; "a"; "f"; "j"; "b"; "l"])).
Proof.
  split; [vm_compute; reflexivity|].
  destruct (test_database_collections ∅ example.warehouse
              ["g"; "k"; "c"; "e"; "i"; "a"; "f"; "j"; "b"; "l"; "d"; "h"])
    as (response & Hrun & Hcollections & _); [vm_compute; reflexivity|].
  by exists response.
Defined.

(** C8: both environments have both settings, with the same
    DATABASE_NAME; one DATABASE_URL is the empty string.  The reported
    [database_url] differs. *)
Lemma test_database_empty_value :
  is_Some (example.env_empty_url !! "DATABASE_URL") /\
  is_Some (example.env_full_url !! "DATABASE_URL") /\
  example.env_empty_url !! "DATABASE_NAME" = example.env_full_url !! "DATABASE_NAME" /\
  spec.response_field (main.test_database example.env_empty_url None).1 "database_url"
  = Some (Mongo.VStr "❌ Not Set") /\
  spec.response_field (main.test_database example.env_full_url None).1 "database_url"
  = Some (Mongo.VStr "✅ Set").
Proof. repeat split; try (eexists; reflexivity); reflexivity. Qed.

Lemma test_database_env_presence_witness :
  Py.truthy (example.env_full_url !! "DATABASE_URL")
  = Py.truthy (example.env_other_url !! "DATABASE_URL") /\
  Py.truthy (example.env_full_url !! "DATABASE_NAME")
  = Py.truthy (example.env_other_url !! "DATABASE_NAME") /\
  spec.response_field (main.test_database example.env_full_url None).1 "database_url"
  = spec.response_field
      (main.test_database example.env_other_url (Some example.shop)).1 "database_url" /\
  spec.response_field (main.test_database example.env_full_url None).1 "database_name"
  = spec.response_field
      (main.test_database example.env_other_url (Some example.shop)).1 "database_name".
Proof.
  split; [vm_compute; reflexivity|]. split; [vm_compute; reflexivity|].
  exact (test_database_env_presence example.env_full_url example.env_other_url
           None (Some example.shop) eq_refl eq_refl).
Defined.


(* ===================================================================== *)
(** ** Further properties of the handlers *)
(* ===================================================================== *)

Section MoreGetById.
Import Py Mongo database main MongoFacts mainFacts.
Context {runtime : Runtime} {regex : RegexEngine}.

(** X1.  Get-by-id answers with the record, with 404 "Chocolate not
    found", or with 500, and with nothing else; it never changes the
    store. *)
Theorem get_chocolate_outcomes (choc_id : string) (db : state) :
  spec.ok_404_or_500 (get_chocolate choc_id db).1 /\
  (get_chocolate choc_id db).2 = db.
Proof.
  destruct db as [db|]; [|split; [by right|reflexivity]].
  unfold get_chocolate, find_one, try_except, on_db, bind, db_is_None, lift, ret, raise.
  destruct (Bson.ObjectId_of choc_id) as [oid|e] eqn:Hoid.
  - destruct (fault db) as [text|] eqn:Hfault.
    + rewrite (find_faulty _ _ _ _ Hfault). split; [by right|reflexivity].
    + rewrite (find_live _ _ _ _ Hfault (by_id_spec _)).
      destruct (head (List.filter _ _)) as [d|].
      * split; [exact I|reflexivity].
      * split; [by left|reflexivity].
  - rewrite (BsonFacts.ObjectId_of_raises _ _ Hoid). split; [by right|reflexivity].
Qed.


(** X3.  When the server cannot be reached, get-by-id answers 500: with
    the driver's error text for an identifier that [ObjectId] accepts,
    and with the InvalidId message for one that it refuses, which is
    detected before the server is contacted.  Without a connection it
    answers 500 "Database not available" for every identifier. *)
Theorem get_chocolate_unreachable (choc_id : string) (db : Database) (text : string) :
  fault db = Some text ->
  get_chocolate choc_id (Some db)
  = (Raised (HTTPException 500
       match Bson.ObjectId_of choc_id with
       | Returned _ => text
       | Raised _ => Bson.invalid_id_message choc_id
       end),
     Some db) /\
  get_chocolate choc_id None
  = (Raised (HTTPException 500 "Database not available"), None).
Proof.
  intros Hfault. split; [|reflexivity].
  unfold get_chocolate, find_one, try_except, on_db, bind, db_is_None, lift, ret, raise.
  destruct (Bson.ObjectId_of choc_id) as [oid|e] eqn:Hoid.
  - by rewrite (find_faulty _ _ _ _ Hfault).
  - by rewrite (BsonFacts.ObjectId_of_raises _ _ Hoid).
Qed.


End MoreGetById.

Section MoreSeed.
Import Py Mongo database main MongoFacts mainFacts.
Context {runtime : Runtime} {regex : RegexEngine} {schema : schemas.Schema}.

(** X5.  After seeding an empty collection on a reachable store, each of
    the samples can be fetched by the identifier it was stored under: the
    response is the sample's fields together with that identifier. *)
Theorem seed_then_get (db : Database) (i : nat) (s : dict) :
  fault db = None ->
  collection db "chocolate" = [] ->
  samples !! i = Some s ->
  exists (db' : Database) (id : string),
    (seed_chocolates (Some db)).2 = Some db' /\
    get_chocolate id (Some db') = (Returned (<["id" := VStr id]> s), Some db').
Proof.
  intros Hfault Hempty Hi.
  set (oid := fun j : nat => Bson.generated (oid_counter db + N.of_nat j)).
  set (f := fun (j : nat) (doc : dict) => {| _id := IdObjectId (oid j); fields := doc |}).
  exists (spec.inserted_all "chocolate" samples db), (Bson.str (oid i)).
  split; [by rewrite seed_chocolates_empty|].
  assert (Hcoll : collection (spec.inserted_all "chocolate" samples db) "chocolate"
                  = imap f samples)
    by (by rewrite collection_inserted_all, Hempty).
  assert (Hlookup : imap f samples !! i = Some (f i s))
    by (by rewrite list_lookup_imap, Hi).
  rewrite (get_chocolate_at (take i (imap f samples)) (drop (S i) (imap f samples))
             (f i s) (oid i)).
  - rewrite expose_id_fields; [reflexivity|].
    apply samples_without_id, list_elem_of_lookup. by exists i.
  - by rewrite fault_inserted_all.
  - by rewrite Hcoll, take_drop_middle.
  - reflexivity.
  - apply BsonFacts.length_generated.
  - destruct (has_id _ _) eqn:Hid; [|reflexivity]. exfalso.
    apply existsb_exists in Hid as (d & Hd & Heq).
    apply list_elem_of_In, elem_of_take in Hd as (j & Hj & Hlt).
    rewrite list_lookup_imap in Hj.
    destruct (samples !! j) as [sj|]; cbn [fmap option_fmap option_map] in Hj; [|discriminate].
    injection Hj as <-.
    unfold carries in Heq. cbn [f _id id_value operand_eqb] in Heq.
    apply andb_true_iff in Heq as [_ Heq%String.eqb_eq].
    apply lookup_lt_Some in Hi. change (length samples) with 4%nat in Hi.
    symmetry in Heq. revert Heq. unfold oid.
    apply BsonFacts.generated_distinct; [lia|].
    change Bson.modulus with 79228162514264337593543950336%N. lia.
Qed.

(** X6.  Seeding touches nothing but the chocolate collection: whatever
    the state of the store, every other collection and the database's
    name are the same afterwards. *)
Theorem seed_chocolates_elsewhere (db : Database) (c : string) :
  c <> "chocolate" ->
  exists db' : Database,
    (seed_chocolates (Some db)).2 = Some db' /\
    collection db' c = collection db c /\
    Mongo.name db' = Mongo.name db.
Proof.
  intros Hc.
  destruct (fault db) as [text|] eqn:Hfault.
  - exists db. by rewrite (seed_chocolates_faulty _ _ Hfault).
  - destruct (collection db "chocolate") as [|d l] eqn:Hcoll.
    + exists (spec.inserted_all "chocolate" samples db).
      rewrite (seed_chocolates_empty _ Hfault Hcoll).
      split; [reflexivity|].
      split; [by apply collections_inserted_all_other|apply name_inserted_all].
    + exists db. rewrite (seed_chocolates_nonempty db Hfault); [done|].
      by rewrite Hcoll.
Qed.

(** X7.  When the server cannot be reached, seeding answers 500 with the
    driver's error text and leaves the store as it was; without a
    connection it answers 500 "Database not available". *)
Theorem seed_chocolates_unreachable (db : Database) (text : string) :
  fault db = Some text ->
  seed_chocolates (Some db) = (Raised (HTTPException 500 text), Some db) /\
  seed_chocolates None = (Raised (HTTPException 500 "Database not available"), None).
Proof. intros Hfault. split; [by apply seed_chocolates_faulty|reflexivity]. Qed.

(** X8.  Create, list and seed answer with their result or with an
    [HTTPException] of status 500: no other exception leaves them and no
    other status is raised. *)
Theorem handlers_raise_500_only
    (payload : ChocolateCreate) (category q : option string) (limit : Z) (db : state) :
  spec.ok_or_500 (create_chocolate payload db).1 /\
  spec.ok_or_500 (list_chocolates category q limit db).1 /\
  spec.ok_or_500 (seed_chocolates db).1.
Proof.
  assert (Hcatch : forall (A : Type) (body : M state A) (st : state),
            spec.ok_or_500
              (try_except body (fun e => raise (HTTPException 500 (str e))) st).1).
  { intros A body st. unfold try_except, raise.
    destruct (body st) as [[v|e] st']; [exact I|reflexivity]. }
  split; [apply Hcatch|]. split; apply Hcatch.
Qed.

(** X9.  Every item that the list operation returns is a record of the
    chocolate collection with its [_id] removed and the text of that
    [_id] under ["id"] (24 hexadecimal digits for an ObjectId, the
    decimal digits for a number, and so on); this holds for every filter
    and limit. *)
Theorem list_chocolates_items_expose_id
    (category q : option string) (limit : Z) (db : state) (items : list dict) :
  (list_chocolates category q limit db).1 = Returned items ->
  exists handle : Database,
    db = Some handle /\
    Forall (fun item : dict =>
              item !! "_id" = None /\
              exists d : document,
                d ∈ collection handle "chocolate" /\
                item = expose_id d /\
                item !! "id" = Some (VStr (str_id (_id d)))) items.
Proof.
  destruct db as [handle|]; [|discriminate].
  intros Hitems. exists handle. split; [reflexivity|]. revert Hitems.
  unfold list_chocolates, try_except, get_documents, on_db, bind, db_is_None, ret, raise.
  cbv zeta.
  destruct (find "chocolate" _ handle) as [[docs|e] handle'] eqn:Hfind; [|discriminate].
  cbn [fst]. intros [= <-].
  assert (Hdocs : forall d, d ∈ docs -> d ∈ collection handle "chocolate").
  { revert Hfind. unfold find, round_trip, bind, lift, get, ret.
    destruct (fault handle); [discriminate|].
    destruct (compile _) as [p|e]; [|discriminate].
    intros [= <- _] d [Hd _]%list_elem_of_In%List.filter_In.
    by apply list_elem_of_In. }
  apply Forall_fmap, Forall_forall. intros d Hd%elem_of_take. unfold compose.
  split; [apply expose_id_no_internal_id|].
  exists d. destruct Hd as (j & Hj & _).
  split; [apply Hdocs, list_elem_of_lookup; by exists j|].
  split; [reflexivity|apply expose_id_id].
Qed.

End MoreSeed.

Section MoreDiagnostic.
Import Py Mongo database main.

(** X10.  The diagnostic report always has the same six entries:
    backend, database, database_url, database_name, connection_status
    and collections. *)
Theorem test_database_keys (environ : gmap string string) (db : state) :
  exists response : dict,
    test_database environ db = (Returned response, db) /\
    dom response = spec.report_keys.
Proof.
  destruct db as [handle|].
  - unfold test_database, list_collection_names, round_trip, bind.
    destruct (fault handle) as [text|]; eexists; (split; [reflexivity|]);
      apply (bool_decide_unpack _); vm_compute; exact I.
  - eexists. split; [reflexivity|].
    apply (bool_decide_unpack _). vm_compute. exact I.
Qed.

(** X11.  The report says "Connected" whenever a database handle exists,
    also when the server cannot be reached and the database entry reports
    the error; it says "Not Connected" only without a handle.  The
    backend entry is always "Running". *)
Theorem test_database_connection_status (environ : gmap string string) (db : state) :
  spec.response_field (test_database environ db).1 "backend" = Some (VStr "✅ Running") /\
  spec.response_field (test_database environ db).1 "connection_status"
  = Some (VStr match db with
               | Some _ => "Connected"
               | None => "Not Connected"
               end).
Proof.
  destruct db as [handle|].
  - unfold test_database, list_collection_names, round_trip, bind.
    destruct (fault handle) as [text|]; split; reflexivity.
  - split; reflexivity.
Qed.

End MoreDiagnostic.

(** Instances of the properties above on the example stores. *)


Lemma get_chocolate_unreachable_witness :
  Mongo.fault example.unreachable_shop
  = Some "localhost:27017: [Errno 111] Connection refused" /\
  main.get_chocolate (runtime := Py.ascii_repr) (regex := Pcre.plain_only)
    "0000 0000 0000 0000 0000" (Some example.unreachable_shop)
  = (Py.Raised (Py.HTTPException 500
       match Bson.ObjectId_of (runtime := Py.ascii_repr) "0000 0000 0000 0000 0000" with
       | Py.Returned _ => "localhost:27017: [Errno 111] Connection refused"
       | Py.Raised _ =>
           Bson.invalid_id_message (runtime := Py.ascii_repr) "0000 0000 0000 0000 0000"
       end),
     Some example.unreachable_shop) /\
  main.get_chocolate (runtime := Py.ascii_repr) (regex := Pcre.plain_only)
    "0000 0000 0000 0000 0000" None
  = (Py.Raised (Py.HTTPException 500 "Database not available"), None).
Proof.
  split; [reflexivity|].
  apply (get_chocolate_unreachable (runtime := Py.ascii_repr) (regex := Pcre.plain_only)
           "0000 0000 0000 0000 0000" example.unreachable_shop
           "localhost:27017: [Errno 111] Connection refused").
  reflexivity.
Defined.


Lemma seed_then_get_witness :
  Mongo.fault example.empty_shop = None /\
  Mongo.collection example.empty_shop "chocolate" = [] /\
  main.samples !! 2%nat = Some (nth 2 main.samples ∅) /\
  exists (db' : Mongo.Database) (id : string),
    (main.seed_chocolates (regex := Pcre.plain_only) (Some example.empty_shop)).2 = Some db' /\
    main.get_chocolate (runtime := Py.ascii_repr) (regex := Pcre.plain_only) id (Some db')
    = (Py.Returned (<["id" := Mongo.VStr id]> (nth 2 main.samples ∅)), Some db').
Proof.
  split; [reflexivity|]. split; [reflexivity|]. split; [reflexivity|].
  apply (seed_then_get (runtime := Py.ascii_repr) (regex := Pcre.plain_only)
           example.empty_shop 2 (nth 2 main.samples ∅));
    reflexivity.
Defined.

Lemma seed_chocolates_elsewhere_witness :
  "orders" <> "chocolate" /\
  exists db' : Mongo.Database,
    (main.seed_chocolates (regex := Pcre.plain_only) (Some example.corner_shop)).2 = Some db' /\
    Mongo.collection db' "orders" = Mongo.collection example.corner_shop "orders" /\
    Mongo.name db' = Mongo.name example.corner_shop.
Proof.
  split; [discriminate|].
  apply (seed_chocolates_elsewhere (regex := Pcre.plain_only) example.corner_shop "orders").
  discriminate.
Defined.

Lemma seed_chocolates_unreachable_witness :
  Mongo.fault example.unreachable_shop
  = Some "localhost:27017: [Errno 111] Connection refused" /\
  main.seed_chocolates (regex := Pcre.plain_only) (Some example.unreachable_shop)
  = (Py.Raised (Py.HTTPException 500 "localhost:27017: [Errno 111] Connection refused"),
     Some example.unreachable_shop) /\
  main.seed_chocolates (regex := Pcre.plain_only) None
  = (Py.Raised (Py.HTTPException 500 "Database not available"), None).
Proof.
  split; [reflexivity|].
  apply (seed_chocolates_unreachable (regex := Pcre.plain_only) example.unreachable_shop
           "localhost:27017: [Errno 111] Connection refused").
  reflexivity.
Defined.

Lemma list_chocolates_items_expose_id_witness :
  (main.list_chocolates (regex := Pcre.plain_only) (Some "Bar") None 50
     (Some example.mixed_shop)).1
  = Py.Returned [main.expose_id example.plain_bar; main.expose_id example.numbered_bar] /\
  main.expose_id example.numbered_bar !! "id" = Some (Mongo.VStr "7") /\
  exists handle : Mongo.Database,
    Some example.mixed_shop = Some handle /\
    Forall (fun item : Mongo.dict =>
              item !! "_id" = None /\
              exists d : Mongo.document,
                d ∈ Mongo.collection handle "chocolate" /\
                item = main.expose_id d /\
                item !! "id" = Some (Mongo.VStr (Mongo.str_id (Mongo._id d))))
           [main.expose_id example.plain_bar; main.expose_id example.numbered_bar].
Proof.
  split; [vm_compute; reflexivity|]. split; [vm_compute; reflexivity|].
  apply (list_chocolates_items_expose_id (regex := Pcre.plain_only) (Some "Bar") None 50
           (Some example.mixed_shop)
           [main.expose_id example.plain_bar; main.expose_id example.numbered_bar]).
  vm_compute. reflexivity.
Defined.
